(** * hdfs_file: an Ansible module reconciling the state of an HDFS path

    Shallow embedding of [library/hdfs_file.py] and
    [module_utils/HdfsUtils.py].

    - [Py]        : the Python primitives the two files rely on
                    (truthiness, [str], [int], [strip], [split],
                    [list.insert]);
    - [HdfsUtils] : [HdfsContextCli], [HdfsCheckMode] and the loading of
                    the utilities module;
    - [hdfs_file] : [resolv_states], [should_modify], the reconciliation
                    carried out by [main];
    - [Double]    : a small in-memory stand-in for the [hdfs] executable,
                    used to run the code on concrete inputs.

    The [hdfs] executable itself is outside the repository: it is a
    parameter, see [Backend].  So is [AnsibleModule]: [exit_json] and
    [fail_json] are taken by their contract, they report and leave the
    interpreter.  The files are Python 2 code (what [communicate] returns
    is split with a [str] separator), and [str] is modelled by [string]. *)

From Stdlib Require Import String Ascii List ZArith Bool Lia.
From Stdlib Require Import DecimalString.
Import ListNotations.
Local Open Scope string_scope.
Local Open Scope Z_scope.

(* ===================================================================== *)
(** ** Python primitives *)
(* ===================================================================== *)

Module Py.

(** The values stored in [module.params] and in the status dictionary:
    [None], a [str], or an [int]. *)
Inductive value : Type :=
| VNone
| VStr (s : string)
| VInt (z : Z).

Definition of_opt (o : option string) : value :=
  match o with
  | None => VNone
  | Some s => VStr s
  end.

Definition of_opt_int (o : option Z) : value :=
  match o with
  | None => VNone
  | Some z => VInt z
  end.

(** [str(int)]: decimal digits, with a leading minus sign when negative. *)
Definition str_int (z : Z) : string := NilZero.string_of_int (Z.to_int z).

(** [str(v)]. *)
Definition str (v : value) : string :=
  match v with
  | VNone => "None"
  | VStr s => s
  | VInt z => str_int z
  end.

(** Truthiness of a string, and of a value that is a string or [None]. *)
Definition truthy_str (s : string) : bool :=
  match s with
  | EmptyString => false
  | String _ _ => true
  end.

Definition truthy (o : option string) : bool :=
  match o with
  | None => false
  | Some s => truthy_str s
  end.

(** [l.insert(i, x)]: [x] is placed before position [i]; when [i] is past
    the end it is appended. *)
Fixpoint insert {A : Type} (i : nat) (x : A) (l : list A) : list A :=
  match i, l with
  | O, _ => x :: l
  | S _, [] => [x]
  | S i', y :: l' => y :: insert i' x l'
  end.

(** Whitespace removed by [str.strip()]: space, tab, newline, carriage
    return, vertical tab, form feed. *)
Definition is_space (c : ascii) : bool :=
  let n := nat_of_ascii c in
  (Nat.eqb n 32 || (Nat.leb 9 n && Nat.leb n 13))%bool.

Fixpoint lstrip (s : string) : string :=
  match s with
  | EmptyString => EmptyString
  | String c s' => if is_space c then lstrip s' else s
  end.

Fixpoint rstrip (s : string) : string :=
  match s with
  | EmptyString => EmptyString
  | String c s' =>
      match rstrip s' with
      | EmptyString => if is_space c then EmptyString else String c EmptyString
      | r => String c r
      end
  end.

Definition strip (s : string) : string := rstrip (lstrip s).

(** [s.split(sep)] for a non-empty separator: cut at every occurrence of
    [sep], scanning from the left.  [skip] counts the characters of a
    separator that has just been recognised and is still to be dropped;
    [cur] is the field being read. *)
Fixpoint split_go (sep : string) (skip : nat) (cur : string) (s : string)
  : list string :=
  match s with
  | EmptyString => [cur]
  | String c s' =>
      match skip with
      | S k => split_go sep k cur s'
      | O =>
          if String.prefix sep s
          then cur :: split_go sep (Nat.pred (String.length sep)) EmptyString s'
          else split_go sep O (cur ++ String c EmptyString) s'
      end
  end.

Definition split (sep s : string) : list string := split_go sep O EmptyString s.

(** [sep in s] for a non-empty [sep]. *)
Fixpoint occurs (sep s : string) : bool :=
  match s with
  | EmptyString => false
  | String c s' => (String.prefix sep s || occurs sep s')%bool
  end.

(** [int(s)] on a [str]: surrounding whitespace is ignored, then an
    optional sign and at least one decimal digit; anything else raises
    [ValueError], modelled by [None]. *)
Definition digit (c : ascii) : option Z :=
  let n := nat_of_ascii c in
  if (Nat.leb 48 n && Nat.leb n 57)%bool then Some (Z.of_nat (n - 48)) else None.

Fixpoint digits (acc : Z) (s : string) : option Z :=
  match s with
  | EmptyString => Some acc
  | String c s' =>
      match digit c with
      | Some d => digits (10 * acc + d) s'
      | None => None
      end
  end.

Definition unsigned (s : string) : option Z :=
  match s with
  | EmptyString => None
  | String _ _ => digits 0 s
  end.

Definition int (s : string) : option Z :=
  match strip s with
  | String "-"%char r => option_map Z.opp (unsigned r)
  | String "+"%char r => unsigned r
  | r => unsigned r
  end.

End Py.


(* ===================================================================== *)
(** ** Processes, exceptions and the ways a run ends *)
(* ===================================================================== *)

(** The [hdfs] executable started through [Popen]: given the argument
    vector it returns the exit status, standard output and standard error
    of the process, and the file system it leaves behind. *)
Class Backend : Type := {
  FS : Type;
  hdfs : list string -> FS -> (Z * string * string) * FS
}.

(** The exceptions raised in the two files. *)
Inductive exn : Type :=
| HdfsUtilsError (msg : string)
| NotImplementedError
| TypeError (msg : string)
| NameError (name : string)
| AttributeError (name : string)
| IndexError
| ValueError.

(** How a run of the module ends: [module.exit_json(changed=...)],
    [module.fail_json(msg=...)] (both leave the interpreter), or an
    exception nobody catches. *)
Inductive stop : Type :=
| ExitJson (changed : bool)
| FailJson (msg : string)
| Raise (e : exn).

Section Monad.
Context {B : Backend}.

(** What a run can observe and change: the file system behind the
    executable, and the argument vectors of the processes started so far
    (oldest first). *)
Record World : Type := { fs : FS; spawned : list (list string) }.

Definition M (A : Type) : Type := World -> (stop + A) * World.

Definition ret {A} (a : A) : M A := fun w => (inr a, w).

Definition bind {A C} (m : M A) (k : A -> M C) : M C :=
  fun w =>
    match m w with
    | (inl s, w') => (inl s, w')
    | (inr a, w') => k a w'
    end.

Definition halt {A} (s : stop) : M A := fun w => (inl s, w).

Definition raise {A} (e : exn) : M A := halt (Raise e).

(** [try: body  except HdfsUtilsError as e: handler(e)]. *)
Definition try_HdfsUtilsError {A} (body : M A) (handler : string -> M A) : M A :=
  fun w =>
    match body w with
    | (inl (Raise (HdfsUtilsError msg)), w') => handler msg w'
    | r => r
    end.

(** [proc = Popen(cmd, ...); out, err = proc.communicate(); proc.wait()]. *)
Definition Popen (cmd : list string) : M (Z * string * string) :=
  fun w =>
    let '(r, fs') := hdfs cmd (fs w) in
    (inr r, {| fs := fs'; spawned := spawned w ++ [cmd] |}).

End Monad.

Declare Scope run_scope.
Delimit Scope run_scope with run.
Notation "x <- m ;; k" := (bind m (fun x => k))
  (at level 61, m at next level, right associativity) : run_scope.
Notation "m ;;; k" := (bind m (fun _ => k))
  (at level 61, right associativity) : run_scope.
Notation "'when' b 'then' m" := (if b then m else ret tt)
  (at level 60, b at level 9) : run_scope.

(* ===================================================================== *)
(** ** module_utils/HdfsUtils.py *)
(* ===================================================================== *)

Module HdfsUtils.

(** The dictionary returned by [stats]. *)
Record Status : Type := {
  st_state : string;
  st_owner : option string;
  st_group : option string;
  st_replication : option Z
}.

Inductive class : Type := HdfsContextCli_class | HdfsContextLib_class | HdfsCheckMode_class.

Definition class_eqb (a b : class) : bool :=
  match a, b with
  | HdfsContextCli_class, HdfsContextCli_class
  | HdfsContextLib_class, HdfsContextLib_class
  | HdfsCheckMode_class, HdfsCheckMode_class => true
  | _, _ => false
  end.

Section Contexts.
Context {B : Backend}.
Local Open Scope run_scope.

(** An instance: its class and what looking up each attribute on it
    gives.  [None] is an attribute the object does not have.  The values
    the methods return ([self]) are never used by a caller and are
    dropped. *)
Record instance : Type := {
  isinstance : class;
  cmd : option string;
  chmod : option (string -> string -> option string -> M unit);
  chown : option (string -> option string -> option string -> option string -> M unit);
  mkdir : option (string -> bool -> M unit);
  remove : option (string -> bool -> M unit);
  setrep : option (string -> string -> M unit);
  stats : option (string -> M Status);
  touch : option (string -> M unit)
}.

(** [obj.name(...)]: the attribute is looked up first. *)
Definition getattr {A} (name : string) (slot : option A) : M A :=
  match slot with
  | Some f => ret f
  | None => raise (AttributeError name)
  end.

End Contexts.

(** *** class HdfsContextCli *)
Module HdfsContextCli.
Section Methods.
Context {B : Backend}.
Local Open Scope run_scope.

(** [if proc.wait() is not 0: raise HdfsUtilsError(fmt % err)]. *)
Definition check (rc : Z) (what err : string) : M unit :=
  if negb (rc =? 0)
  then raise (HdfsUtilsError ("subprocess " ++ what ++ " stderr: " ++ err))
  else ret tt.

Definition chmod_cmd (self_cmd path mode : string) (recurse : option string) : list string :=
  let cmd := [self_cmd; "dfs"; "-chmod"; mode; path] in
  if Py.truthy recurse then Py.insert 3 "-R" cmd else cmd.

Definition chmod (self_cmd path mode : string) (recurse : option string) : M unit :=
  r <- Popen (chmod_cmd self_cmd path mode recurse) ;;
  let '(rc, out, err) := r in
  check rc "chmod" err.

(** [target = owner if owner else "" + ":" + group if group else ""]:
    a conditional expression binds more loosely than [+] and nests to the
    right, so this is
    [owner if owner else (("" + ":" + group) if group else "")]. *)
Definition chown_target (owner group : option string) : string :=
  match owner with
  | Some o =>
      if Py.truthy_str o then o
      else match group with
           | Some g => if Py.truthy_str g then "" ++ ":" ++ g else ""
           | None => ""
           end
  | None =>
      match group with
      | Some g => if Py.truthy_str g then "" ++ ":" ++ g else ""
      | None => ""
      end
  end.

Definition chown_cmd (self_cmd path : string) (owner group recurse : option string)
  : list string :=
  let target := chown_target owner group in
  let cmd := [self_cmd; "dfs"; "-chown"; target; path] in
  if Py.truthy recurse then Py.insert 3 "-R" cmd else cmd.

Definition chown (self_cmd path : string) (owner group recurse : option string) : M unit :=
  r <- Popen (chown_cmd self_cmd path owner group recurse) ;;
  let '(rc, out, err) := r in
  check rc "chown" err.

Definition mkdir_cmd (self_cmd path : string) (parent : bool) : list string :=
  let cmd := [self_cmd; "dfs"; "-mkdir"; path] in
  if parent then Py.insert 3 "-p" cmd else cmd.

Definition mkdir (self_cmd path : string) (parent : bool) : M unit :=
  r <- Popen (mkdir_cmd self_cmd path parent) ;;
  let '(rc, out, err) := r in
  check rc "mkdir" err.

Definition remove_cmd (self_cmd path : string) (recurse : bool) : list string :=
  let cmd := [self_cmd; "dfs"; "-rm"; path] in
  if recurse then Py.insert 3 "-r" cmd else cmd.

Definition remove (self_cmd path : string) (recurse : bool) : M unit :=
  r <- Popen (remove_cmd self_cmd path recurse) ;;
  let '(rc, out, err) := r in
  check rc "rm" err.

Definition setrep_cmd (self_cmd path factor : string) : list string :=
  [self_cmd; "dfs"; "-setrep"; factor; path].

Definition setrep (self_cmd path factor : string) : M unit :=
  r <- Popen (setrep_cmd self_cmd path factor) ;;
  let '(rc, out, err) := r in
  check rc "setrep" err.

Definition touch_cmd (self_cmd path : string) : list string :=
  [self_cmd; "dfs"; "-touchz"; path].

Definition touch (self_cmd path : string) : M unit :=
  r <- Popen (touch_cmd self_cmd path) ;;
  let '(rc, out, err) := r in
  check rc "touchz" err.

Definition stats_cmd (self_cmd path : string) : list string :=
  [self_cmd; "dfs"; "-stat"; "%F[SEP]%u[SEP]%g[SEP]%r"; path].

(** The dictionary [stats] starts from, returned as it is when the
    process fails. *)
Definition result0 : Status :=
  {| st_state := "absent"; st_owner := None; st_group := None;
     st_replication := None |}.

(** The part of [stats] after the process has succeeded: the four fields
    are read by index (a missing one raises [IndexError]), the state
    label is normalised, the replication goes through [int]. *)
Definition parse (out : string) : exn + Status :=
  match Py.split "[SEP]" (Py.strip out) with
  | f_state :: f_owner :: f_group :: f_replication :: _ =>
      let state := if String.eqb f_state "regular file" then "file" else f_state in
      match Py.int f_replication with
      | Some n =>
          inr {| st_state := state; st_owner := Some f_owner;
                 st_group := Some f_group; st_replication := Some n |}
      | None => inl ValueError
      end
  | _ => inl IndexError
  end.

Definition stats (self_cmd path : string) : M Status :=
  r <- Popen (stats_cmd self_cmd path) ;;
  let '(rc, out, err) := r in
  if negb (rc =? 0) then ret result0
  else match parse out with
       | inr result => ret result
       | inl e => raise e
       end.

(** [HdfsContextCli(command)]; the default [command] is ["/bin/hdfs"]. *)
Definition new (command : string) : instance :=
  {| isinstance := HdfsContextCli_class;
     cmd := Some command;
     HdfsUtils.chmod := Some (chmod command);
     HdfsUtils.chown := Some (chown command);
     HdfsUtils.mkdir := Some (mkdir command);
     HdfsUtils.remove := Some (remove command);
     HdfsUtils.setrep := Some (setrep command);
     HdfsUtils.stats := Some (stats command);
     HdfsUtils.touch := Some (touch command) |}.

End Methods.
End HdfsContextCli.

(** *** class HdfsCheckMode *)
Module HdfsCheckMode.
Section Methods.
Context {B : Backend}.
Local Open Scope run_scope.

(** The object under construction, [self]: it has none of the context
    attributes. *)
Definition self : instance :=
  {| isinstance := HdfsCheckMode_class; cmd := None;
     chmod := None; chown := None; mkdir := None; remove := None;
     setrep := None; stats := None; touch := None |}.

(** [inst] after the six [setattr] calls: every "action" attribute is a
    closure that does nothing and returns; [stats] and [cmd] are kept. *)
Definition neutralize (inst : instance) : instance :=
  {| isinstance := isinstance inst;
     cmd := cmd inst;
     chmod := Some (fun path mode recurse => ret tt);
     chown := Some (fun path owner group recurse => ret tt);
     mkdir := Some (fun path parent => ret tt);
     remove := Some (fun path recurse => ret tt);
     setrep := Some (fun path factor => ret tt);
     stats := stats inst;
     touch := Some (fun path => ret tt) |}.

(** [__init__(self, inst)].  A call that does not raise gives the state
    in which it leaves the object [inst] (it is patched in place) and the
    value of its [return] statement. *)
Definition __init__ (inst : instance) : exn + (instance * option instance) :=
  if (negb (class_eqb (isinstance inst) HdfsContextCli_class)
      && negb (class_eqb (isinstance inst) HdfsContextLib_class))%bool
  then inl (HdfsUtilsError "HdfsCheckMode expect a valid HdfsContext instance")
  else
    let inst' := neutralize inst in
    inr (inst', Some inst').

(** [HdfsCheckMode(inst)]: the interpreter creates the object, runs
    [__init__] on it, and refuses a value other than [None] returned by
    [__init__] with a [TypeError]; otherwise the call evaluates to the new
    object. *)
Definition new (inst : instance) : exn + instance :=
  match __init__ inst with
  | inl e => inl e
  | inr (_, Some _) => inl (TypeError "__init__() should return None")
  | inr (_, None) => inr self
  end.

End Methods.
End HdfsCheckMode.

(** *** Loading the file

    The top-level statements of [HdfsUtils.py], in order.  A [class]
    statement runs the statements of its body when it is reached, then
    binds its name; a [def] only binds its name. *)
#[warnings="-register-all"]
Inductive stmt : Type :=
| Docstring
| Pass
| Import (names : list string)
| Def (name : string)
| RaiseStmt (e : exn)
| Class (name : string) (body : list stmt).

(** Running a statement in a namespace (the names bound so far, most
    recent first): the exception it raises, or the namespace after it. *)
Fixpoint exec (s : stmt) (ns : list string) : exn + list string :=
  match s with
  | Docstring | Pass => inr ns
  | Import names => inr (rev names ++ ns)%list
  | Def name => inr (name :: ns)
  | RaiseStmt e => inl e
  | Class name body =>
      let fix block (b : list stmt) (cns : list string) : exn + list string :=
        match b with
        | [] => inr cns
        | s' :: b' =>
            match exec s' cns with
            | inl e => inl e
            | inr cns' => block b' cns'
            end
        end in
      match block body [] with
      | inl e => inl e
      | inr _ => inr (name :: ns)
      end
  end.

Fixpoint exec_block (b : list stmt) (ns : list string) : exn + list string :=
  match b with
  | [] => inr ns
  | s :: b' =>
      match exec s ns with
      | inl e => inl e
      | inr ns' => exec_block b' ns'
      end
  end.

Definition source : list stmt :=
  [ Docstring;
    Class "HdfsUtilsError" [Pass];
    Docstring;
    Import ["re"];
    Import ["Popen"; "PIPE"];
    Class "HdfsContextCli"
      [Def "__init__"; Def "chmod"; Def "chown"; Def "mkdir"; Def "remove";
       Def "setrep"; Def "stats"; Def "touch"];
    Docstring;
    Class "HdfsContextLib" [RaiseStmt NotImplementedError];
    Docstring;
    Class "HdfsCheckMode" [Def "__init__"] ].

(** [import HdfsUtils]: the module's namespace once every statement has
    run; an exception raised on the way leaves the importer without a
    module. *)
Definition import_module : exn + list string := exec_block source [].

(** [from HdfsUtils import name]. *)
Definition from_import (name : string) : exn + string :=
  match import_module with
  | inl e => inl e
  | inr ns =>
      if existsb (String.eqb name) ns then inr name
      else inl (NameError name)
  end.

End HdfsUtils.

(* ===================================================================== *)
(** ** library/hdfs_file.py *)
(* ===================================================================== *)

Module hdfs_file.

(** The [choices] of the [state] and [method] options; [AnsibleModule]
    refuses any other value before [main] reads [module.params]. *)
Inductive state_choice : Type := file | directory | touch | absent.

Definition state_str (s : state_choice) : string :=
  match s with
  | file => "file"
  | directory => "directory"
  | touch => "touch"
  | absent => "absent"
  end.

Inductive method_choice : Type := command | library.

Definition method_str (m : method_choice) : string :=
  match m with
  | command => "command"
  | library => "library"
  end.

(** [module.params], as [build_module] declares them: no option has a
    [type], so each one is [None] or a [str]; [path] is required. *)
Record Params : Type := {
  group : option string;
  method : method_choice;
  mode : option string;
  owner : option string;
  path : string;
  recurse : option string;
  replication : option string;
  state : state_choice
}.

Record AnsibleModule : Type := { params : Params; check_mode : bool }.

(** The keys [should_modify] is called with. *)
Inductive key : Type := Owner | Group | Replication.

Definition params_get (p : Params) (k : key) : Py.value :=
  match k with
  | Owner => Py.of_opt (owner p)
  | Group => Py.of_opt (group p)
  | Replication => Py.of_opt (replication p)
  end.

Definition status_get (s : HdfsUtils.Status) (k : key) : Py.value :=
  match k with
  | Owner => Py.of_opt (HdfsUtils.st_owner s)
  | Group => Py.of_opt (HdfsUtils.st_group s)
  | Replication => Py.of_opt_int (HdfsUtils.st_replication s)
  end.

Definition is_None (v : Py.value) : bool :=
  match v with
  | Py.VNone => true
  | _ => false
  end.

Definition should_modify (status : HdfsUtils.Status) (params : Params) (value : key) : bool :=
  if is_None (params_get params value) then false
  else if String.eqb (state_str (state params)) "touch" then true
  else if String.eqb (Py.str (status_get status value)) (Py.str (params_get params value))
  then false
  else true.

Section Engine.
Context {B : Backend}.
Local Open Scope run_scope.

Definition fail_json {A} (msg : string) : M A := halt (FailJson msg).
Definition exit_json {A} (changed : bool) : M A := halt (ExitJson changed).

Definition resolv_states (module : AnsibleModule) (params : Params)
    (context : HdfsUtils.instance) (status : HdfsUtils.Status) : M bool :=
  let old := HdfsUtils.st_state status in
  let new := state_str (state params) in
  try_HdfsUtilsError
    (if (String.eqb old "absent" && String.eqb new "file")%bool then
       fail_json "no such file, to create new file use state 'touch' instead of 'file'"
     else if (String.eqb old "absent" && String.eqb new "directory")%bool then
       f <- HdfsUtils.getattr "mkdir" (HdfsUtils.mkdir context) ;;
       f (path params) true
     else if (String.eqb new "touch"
              && existsb (String.eqb old) ["absent"; "file"])%bool then
       f <- HdfsUtils.getattr "touch" (HdfsUtils.touch context) ;;
       f (path params)
     else if (String.eqb new "absent" && String.eqb old "file")%bool then
       f <- HdfsUtils.getattr "remove" (HdfsUtils.remove context) ;;
       f (path params) false
     else if (String.eqb new "absent" && String.eqb old "directory")%bool then
       f <- HdfsUtils.getattr "remove" (HdfsUtils.remove context) ;;
       f (path params) true
     else
       fail_json ("unsupported state convert '" ++ old ++ "' -> '" ++ new ++ "'"))
    (fun e => fail_json e) ;;;
  ret true.

(** [main] from [status = context.stats(params["path"])] to its end. *)
Definition reconcile (module : AnsibleModule) (context : HdfsUtils.instance) : M Empty_set :=
  let params := params module in
  let changed := false in
  stats <- HdfsUtils.getattr "stats" (HdfsUtils.stats context) ;;
  status <- stats (path params) ;;
  (* STATE *)
  changed <- (if negb (String.eqb (HdfsUtils.st_state status) (state_str (state params)))
              then resolv_states module params context status ;;; ret true
              else ret changed) ;;
  when (String.eqb (state_str (state params)) "absent") then exit_json changed ;;;
  (* OWNER *)
  changed <- (if should_modify status params Owner
              then f <- HdfsUtils.getattr "chown" (HdfsUtils.chown context) ;;
                   f (path params) (owner params) None (recurse params) ;;;
                   ret true
              else ret changed) ;;
  (* GROUP *)
  changed <- (if should_modify status params Group
              then f <- HdfsUtils.getattr "chown" (HdfsUtils.chown context) ;;
                   f (path params) None (group params) (recurse params) ;;;
                   ret true
              else ret changed) ;;
  (* REPLICATION *)
  changed <- (if should_modify status params Replication
              then f <- HdfsUtils.getattr "setrep" (HdfsUtils.setrep context) ;;
                   match replication params with
                   | Some factor => f (path params) factor
                   | None => raise (TypeError "expected a string")
                   end ;;;
                   ret true
              else ret changed) ;;
  (* MODE *)
  changed <- (match mode params with
              | Some m =>
                  f <- HdfsUtils.getattr "chmod" (HdfsUtils.chmod context) ;;
                  f (path params) m (recurse params) ;;;
                  ret true
              | None => ret changed
              end) ;;
  exit_json changed.

(** The names bound at the top level of [hdfs_file.py] that [main] looks
    up to build its context.  The file's import statement is
    [from ansible.module_utils.cyres.HdfsUtils import (HdfsUtilsError,
    HdfsCheckMode)]. *)
Definition globals : list string :=
  ["ANSIBLE_METADATA"; "DOCUMENTATION"; "EXAMPLES"; "sys"; "AnsibleModule";
   "HdfsUtilsError"; "HdfsCheckMode"; "build_module"; "resolv_states";
   "should_modify"; "main"].

Definition lookup (G : list string) (name : string) : M unit :=
  if existsb (String.eqb name) G then ret tt else raise (NameError name).

(** [main], in a top-level namespace [G], on the module object that
    [build_module] returns. *)
Definition main_in (G : list string) (module : AnsibleModule) : M Empty_set :=
  context <- (match method (params module) with
              | command =>
                  lookup G "HdfsContextCli" ;;;
                  ret (HdfsUtils.HdfsContextCli.new "/bin/hdfs")
              | library => fail_json "Not yet implemented"
              end) ;;
  context <- (if check_mode module
              then lookup G "HdfsCheckMode" ;;;
                   match HdfsUtils.HdfsCheckMode.new context with
                   | inl e => raise e
                   | inr obj => ret obj
                   end
              else ret context) ;;
  reconcile module context.

Definition main (module : AnsibleModule) : M Empty_set := main_in globals module.

(** How a run ends, and the world it leaves. *)
Definition run (m : M Empty_set) (w : World) : stop * World :=
  match m w with
  | (inl s, w') => (s, w')
  | (inr e, _) => match e with end
  end.

End Engine.
End hdfs_file.

(* ===================================================================== *)
(** ** A stand-in for the [hdfs] executable *)
(* ===================================================================== *)

(** An in-memory file system with a flat name space, answering the seven
    [hdfs dfs] subcommands the module issues.  It is used to run the code
    on concrete inputs only; no general statement below depends on it. *)
Module Double.

Record entry : Type := {
  kind : string;          (* what "%F" prints: "regular file" or "directory" *)
  e_owner : string;
  e_group : string;
  e_replication : Z
}.

Definition store : Type := list (string * entry).

Fixpoint find (p : string) (t : store) : option entry :=
  match t with
  | [] => None
  | (q, e) :: t' => if String.eqb p q then Some e else find p t'
  end.

Fixpoint delete (p : string) (t : store) : store :=
  match t with
  | [] => []
  | (q, e) :: t' => if String.eqb p q then delete p t' else (q, e) :: delete p t'
  end.

Definition put (p : string) (e : entry) (t : store) : store := (p, e) :: delete p t.

Definition ok (t : store) : (Z * string * string) * store := ((0, "", ""), t).
Definition ko (msg : string) (t : store) : (Z * string * string) * store := ((1, "", msg), t).

Definition new_dir : entry :=
  {| kind := "directory"; e_owner := "hdfs"; e_group := "supergroup"; e_replication := 0 |}.
Definition new_file : entry :=
  {| kind := "regular file"; e_owner := "hdfs"; e_group := "supergroup"; e_replication := 3 |}.

(** An optional flag in front of the operands. *)
Definition flag (f : string) (args : list string) : bool * list string :=
  match args with
  | a :: rest => if String.eqb a f then (true, rest) else (false, args)
  | [] => (false, [])
  end.

Definition set_owner (target : string) (e : entry) : entry :=
  match Py.split ":" target with
  | [o] => {| kind := kind e; e_owner := o; e_group := e_group e;
              e_replication := e_replication e |}
  | [o; g] =>
      {| kind := kind e;
         e_owner := if Py.truthy_str o then o else e_owner e;
         e_group := if Py.truthy_str g then g else e_group e;
         e_replication := e_replication e |}
  | _ => e
  end.

Definition exec (argv : list string) (t : store) : (Z * string * string) * store :=
  match argv with
  | _ :: dfs :: sub :: args =>
      if negb (String.eqb dfs "dfs") then ko "unknown command" t
      else if String.eqb sub "-stat" then
        match args with
        | [_; p] =>
            match find p t with
            | Some e =>
                ((0, kind e ++ "[SEP]" ++ e_owner e ++ "[SEP]" ++ e_group e ++ "[SEP]"
                       ++ Py.str_int (e_replication e) ++ String "010"%char "", ""), t)
            | None => ko "stat: No such file or directory" t
            end
        | _ => ko "stat: usage" t
        end
      else if String.eqb sub "-mkdir" then
        match flag "-p" args with
        | (parent, [p]) =>
            match find p t with
            | None => ok (put p new_dir t)
            | Some e =>
                if (parent && String.eqb (kind e) "directory")%bool then ok t
                else ko "mkdir: File exists" t
            end
        | _ => ko "mkdir: usage" t
        end
      else if String.eqb sub "-rm" then
        match flag "-r" args with
        | (r, [p]) =>
            match find p t with
            | None => ko "rm: No such file or directory" t
            | Some e =>
                if (String.eqb (kind e) "directory" && negb r)%bool
                then ko "rm: Is a directory" t
                else ok (delete p t)
            end
        | _ => ko "rm: usage" t
        end
      else if String.eqb sub "-touchz" then
        match args with
        | [p] =>
            match find p t with
            | None => ok (put p new_file t)
            | Some e =>
                if String.eqb (kind e) "directory" then ko "touchz: Is a directory" t
                else ok t
            end
        | _ => ko "touchz: usage" t
        end
      else if String.eqb sub "-chown" then
        match flag "-R" args with
        | (_, [target; p]) =>
            match find p t with
            | None => ko "chown: No such file or directory" t
            | Some e =>
                if Py.truthy_str target then ok (put p (set_owner target e) t)
                else ko "chown: invalid owner" t
            end
        | _ => ko "chown: usage" t
        end
      else if String.eqb sub "-chmod" then
        match flag "-R" args with
        | (_, [_; p]) =>
            match find p t with
            | None => ko "chmod: No such file or directory" t
            | Some _ => ok t
            end
        | _ => ko "chmod: usage" t
        end
      else if String.eqb sub "-setrep" then
        match args with
        | [factor; p] =>
            match find p t, Py.int factor with
            | Some e, Some n =>
                ok (put p {| kind := kind e; e_owner := e_owner e; e_group := e_group e;
                             e_replication := n |} t)
            | _, _ => ko "setrep: failed" t
            end
        | _ => ko "setrep: usage" t
        end
      else ko "unknown command" t
  | _ => ko "usage" t
  end.

#[export] Instance backend : Backend := {| FS := store; hdfs := exec |}.

Definition logged (t : store) (log : list (list string)) : @World backend :=
  {| fs := t; spawned := log |}.

Definition world (t : store) : @World backend := logged t [].

(** A context that talks to the stand-in. *)
Definition cli : @HdfsUtils.instance backend := HdfsUtils.HdfsContextCli.new "/bin/hdfs".

End Double.

(** An executable that gives the same answer to every command and keeps
    no state, to run the code on answers of any shape. *)
Module Canned.

Definition answering (r : Z * string * string) : Backend :=
  {| FS := unit; hdfs := fun _ t => (r, t) |}.

Definition blank (r : Z * string * string) : @World (answering r) :=
  @Build_World (answering r) tt [].

End Canned.

(** Parameters and module objects used to run the code on concrete
    inputs. *)
Module Scenario.

(** The first example of the module's documentation: a directory with
    owner, group and mode. *)
Definition create_folder : hdfs_file.Params :=
  {| hdfs_file.group := Some "mygroup"; hdfs_file.method := hdfs_file.command;
     hdfs_file.mode := Some "0755"; hdfs_file.owner := Some "myuser";
     hdfs_file.path := "/tmp/myfolder"; hdfs_file.recurse := None;
     hdfs_file.replication := None; hdfs_file.state := hdfs_file.directory |}.

Definition real (p : hdfs_file.Params) : hdfs_file.AnsibleModule :=
  {| hdfs_file.params := p; hdfs_file.check_mode := false |}.

Definition check (p : hdfs_file.Params) : hdfs_file.AnsibleModule :=
  {| hdfs_file.params := p; hdfs_file.check_mode := true |}.


Definition file_with_mode : hdfs_file.Params :=
  {| hdfs_file.group := None; hdfs_file.method := hdfs_file.command;
     hdfs_file.mode := Some "0644"; hdfs_file.owner := None;
     hdfs_file.path := "/tmp/myfile"; hdfs_file.recurse := None;
     hdfs_file.replication := None; hdfs_file.state := hdfs_file.file |}.

Definition folder_owned : hdfs_file.Params :=
  {| hdfs_file.group := Some "mygroup"; hdfs_file.method := hdfs_file.command;
     hdfs_file.mode := None; hdfs_file.owner := Some "myuser";
     hdfs_file.path := "/tmp/myfolder"; hdfs_file.recurse := None;
     hdfs_file.replication := None; hdfs_file.state := hdfs_file.directory |}.

Definition file_status : HdfsUtils.Status :=
  {| HdfsUtils.st_state := "file"; HdfsUtils.st_owner := Some "hdfs";
     HdfsUtils.st_group := Some "supergroup"; HdfsUtils.st_replication := Some 3 |}.

Definition folder_status : HdfsUtils.Status :=
  {| HdfsUtils.st_state := "directory"; HdfsUtils.st_owner := Some "myuser";
     HdfsUtils.st_group := Some "mygroup"; HdfsUtils.st_replication := Some 0 |}.

Definition folder_owned_by_None : hdfs_file.Params :=
  {| hdfs_file.group := None; hdfs_file.method := hdfs_file.command;
     hdfs_file.mode := None; hdfs_file.owner := Some "None";
     hdfs_file.path := "/tmp/myfolder"; hdfs_file.recurse := None;
     hdfs_file.replication := None; hdfs_file.state := hdfs_file.directory |}.

End Scenario.

(* ===================================================================== *)
(** ** Vocabulary of the statements *)
(* ===================================================================== *)

Section Vocabulary.
Context {B : Backend}.

(** The world after a process started with [argv] has left the file
    system [fs']. *)
Definition after (w : World) (argv : list string) (fs' : FS) : World :=
  {| fs := fs'; spawned := spawned w ++ [argv] |}.

(** The processes started between two worlds of one run. *)
Definition issued (w w' : World) : list (list string) :=
  skipn (length (spawned w)) (spawned w').

(** The [hdfs dfs] subcommand of an argument vector: [cmd.insert(3, _)]
    leaves it at index 2. *)
Definition subcommand (argv : list string) : string := nth 2 argv "".

Definition is_chown (argv : list string) : bool := String.eqb (subcommand argv) "-chown".

Definition is_attribute_op (argv : list string) : bool :=
  existsb (String.eqb (subcommand argv)) ["-chown"; "-setrep"; "-chmod"].

Definition is_mutation (argv : list string) : bool :=
  negb (String.eqb (subcommand argv) "-stat").

(** Starting the processes of a list one after the other, each labelled
    with the name used in its error message, until one of them exits with
    a non-zero status: the text of the [HdfsUtilsError] raised then, if
    any, and the world reached. *)
Fixpoint run_all (calls : list (string * list string)) (w : World)
  : option string * World :=
  match calls with
  | [] => (None, w)
  | (what, argv) :: rest =>
      let '((rc, out, err), fs') := hdfs argv (fs w) in
      if negb (rc =? 0)
      then (Some ("subprocess " ++ what ++ " stderr: " ++ err), after w argv fs')
      else run_all rest (after w argv fs')
  end.

(** The coverage table of the state transitions, as the specification
    words it: what the step does for a current state [old] and a desired
    state [new] that differ. *)
Inductive transition : Type :=
| Unsupported (msg : string)
| Call (what : string) (argv : list string).

Definition names_both (old : string) (new : hdfs_file.state_choice) : string :=
  "unsupported state convert '" ++ old ++ "' -> '" ++ hdfs_file.state_str new ++ "'".

Definition transition_table (c path old : string) (new : hdfs_file.state_choice)
  : transition :=
  match new with
  | hdfs_file.file =>
      if String.eqb old "absent"
      then Unsupported "no such file, to create new file use state 'touch' instead of 'file'"
      else Unsupported (names_both old new)
  | hdfs_file.directory =>
      if String.eqb old "absent"
      then Call "mkdir" [c; "dfs"; "-mkdir"; "-p"; path]
      else Unsupported (names_both old new)
  | hdfs_file.touch =>
      if (String.eqb old "absent" || String.eqb old "file")%bool
      then Call "touchz" [c; "dfs"; "-touchz"; path]
      else Unsupported (names_both old new)
  | hdfs_file.absent =>
      if String.eqb old "file" then Call "rm" [c; "dfs"; "-rm"; path]
      else if String.eqb old "directory" then Call "rm" [c; "dfs"; "-rm"; "-r"; path]
      else Unsupported (names_both old new)
  end.

(** The attribute steps of [main] that apply for a status, in order, as
    the processes an [HdfsContextCli] starts for them. *)
Definition attribute_calls (c : string) (p : hdfs_file.Params) (status : HdfsUtils.Status)
  : list (string * list string) :=
  ((if hdfs_file.should_modify status p hdfs_file.Owner
    then [("chown", HdfsUtils.HdfsContextCli.chown_cmd c (hdfs_file.path p)
                      (hdfs_file.owner p) None (hdfs_file.recurse p))]
    else [])
   ++ (if hdfs_file.should_modify status p hdfs_file.Group
       then [("chown", HdfsUtils.HdfsContextCli.chown_cmd c (hdfs_file.path p)
                         None (hdfs_file.group p) (hdfs_file.recurse p))]
       else [])
   ++ (if hdfs_file.should_modify status p hdfs_file.Replication
       then match hdfs_file.replication p with
            | Some factor =>
                [("setrep", HdfsUtils.HdfsContextCli.setrep_cmd c (hdfs_file.path p) factor)]
            | None => []
            end
       else [])
   ++ (match hdfs_file.mode p with
       | Some m => [("chmod", HdfsUtils.HdfsContextCli.chmod_cmd c (hdfs_file.path p) m
                                (hdfs_file.recurse p))]
       | None => []
       end))%list.

(** How [main] ends once the state step is behind it with the flag
    [changed], on an [HdfsContextCli]. *)
Definition attributes_phase (c : string) (p : hdfs_file.Params) (status : HdfsUtils.Status)
    (changed : bool) (w : World) : stop * World :=
  match run_all (attribute_calls c p status) w with
  | (Some msg, w') => (Raise (HdfsUtilsError msg), w')
  | (None, w') =>
      (ExitJson (changed || negb (Nat.eqb (length (attribute_calls c p status)) 0)), w')
  end.

Definition finish (c : string) (p : hdfs_file.Params) (status : HdfsUtils.Status)
    (changed : bool) (w : World) : stop * World :=
  if String.eqb (hdfs_file.state_str (hdfs_file.state p)) "absent" then (ExitJson changed, w)
  else attributes_phase c p status changed w.

(** The process of the state step, when there is one. *)
Definition transition_calls (c : string) (p : hdfs_file.Params) (status : HdfsUtils.Status)
  : list (string * list string) :=
  if String.eqb (HdfsUtils.st_state status) (hdfs_file.state_str (hdfs_file.state p)) then []
  else match transition_table c (hdfs_file.path p) (HdfsUtils.st_state status)
               (hdfs_file.state p) with
       | Call what argv => [(what, argv)]
       | Unsupported _ => []
       end.

(** Every process a run that finds [status] starts after its query, when
    none of them fails. *)
Definition plan (c : string) (p : hdfs_file.Params) (status : HdfsUtils.Status)
  : list (list string) :=
  (map snd (transition_calls c p status)
   ++ (if String.eqb (hdfs_file.state_str (hdfs_file.state p)) "absent" then []
       else map snd (attribute_calls c p status)))%list.

(** The flag such a run reports. *)
Definition changed_flag (c : string) (p : hdfs_file.Params) (status : HdfsUtils.Status) : bool :=
  (negb (String.eqb (HdfsUtils.st_state status) (hdfs_file.state_str (hdfs_file.state p)))
   || (negb (String.eqb (hdfs_file.state_str (hdfs_file.state p)) "absent")
       && negb (Nat.eqb (length (attribute_calls c p status)) 0)))%bool.

(** The attribute processes of a run whose desired state is [touch]:
    one for each option that is set, whatever the status. *)
Definition touch_calls (c : string) (p : hdfs_file.Params) : list (list string) :=
  ((match hdfs_file.owner p with
    | Some _ => [HdfsUtils.HdfsContextCli.chown_cmd c (hdfs_file.path p)
                   (hdfs_file.owner p) None (hdfs_file.recurse p)]
    | None => []
    end)
   ++ (match hdfs_file.group p with
       | Some _ => [HdfsUtils.HdfsContextCli.chown_cmd c (hdfs_file.path p)
                      None (hdfs_file.group p) (hdfs_file.recurse p)]
       | None => []
       end)
   ++ (match hdfs_file.replication p with
       | Some factor => [HdfsUtils.HdfsContextCli.setrep_cmd c (hdfs_file.path p) factor]
       | None => []
       end)
   ++ (match hdfs_file.mode p with
       | Some m => [HdfsUtils.HdfsContextCli.chmod_cmd c (hdfs_file.path p) m
                      (hdfs_file.recurse p)]
       | None => []
       end))%list.

(** "One combined chown": a run that finds the owner or the group to
    apply and completes has started exactly one [-chown] process, the one
    of a single call carrying both options. *)
Definition single_combined_chown (c : string) (module : hdfs_file.AnsibleModule)
    (w : World) : Prop :=
  let p := hdfs_file.params module in
  forall status w1 changed w',
    HdfsUtils.HdfsContextCli.stats c (hdfs_file.path p) w = (inr status, w1) ->
    (hdfs_file.should_modify status p hdfs_file.Owner
     || hdfs_file.should_modify status p hdfs_file.Group)%bool = true ->
    hdfs_file.run (hdfs_file.reconcile module (HdfsUtils.HdfsContextCli.new c)) w
      = (ExitJson changed, w') ->
    filter is_chown (issued w w')
      = [HdfsUtils.HdfsContextCli.chown_cmd c (hdfs_file.path p) (hdfs_file.owner p)
           (hdfs_file.group p) (hdfs_file.recurse p)].

(** "The first run's mutations are reflected in the second run's stat":
    [s1] is the status the first run found, [s2] the one the second run
    finds.  The path is in the desired state; an attribute the first run
    applied reads back, under [str], as the requested string; an
    attribute it left alone on a path that needed no transition reads
    back as before. *)
Definition reflected (p : hdfs_file.Params) (s1 s2 : HdfsUtils.Status) : Prop :=
  HdfsUtils.st_state s2 = hdfs_file.state_str (hdfs_file.state p) /\
  (hdfs_file.state p <> hdfs_file.absent ->
   forall k, hdfs_file.is_None (hdfs_file.params_get p k) = false ->
     (hdfs_file.should_modify s1 p k = true ->
        Py.str (hdfs_file.status_get s2 k) = Py.str (hdfs_file.params_get p k)) /\
     (hdfs_file.should_modify s1 p k = false ->
        HdfsUtils.st_state s1 = hdfs_file.state_str (hdfs_file.state p) ->
        hdfs_file.status_get s2 k = hdfs_file.status_get s1 k)).

(** "Idempotence": a second run on the world a completed first run
    leaves, finding a status that reflects the first run's mutations,
    reports [changed=false]. *)
Definition idempotent (c : string) (module : hdfs_file.AnsibleModule) (w : World) : Prop :=
  let p := hdfs_file.params module in
  let ctx := HdfsUtils.HdfsContextCli.new c in
  forall s1 wa changed1 w1 s2 wb,
    HdfsUtils.HdfsContextCli.stats c (hdfs_file.path p) w = (inr s1, wa) ->
    hdfs_file.run (hdfs_file.reconcile module ctx) w = (ExitJson changed1, w1) ->
    HdfsUtils.HdfsContextCli.stats c (hdfs_file.path p) w1 = (inr s2, wb) ->
    reflected p s1 s2 ->
    hdfs_file.run (hdfs_file.reconcile module ctx) w1 = (ExitJson false, wb).

(** How a run ends on a context whose "action" attributes do nothing. *)
Definition dry_outcome (c : string) (p : hdfs_file.Params) (status : HdfsUtils.Status) : stop :=
  if String.eqb (HdfsUtils.st_state status) (hdfs_file.state_str (hdfs_file.state p))
  then ExitJson (changed_flag c p status)
  else match transition_table c (hdfs_file.path p) (HdfsUtils.st_state status)
               (hdfs_file.state p) with
       | Unsupported msg => FailJson msg
       | Call _ _ => ExitJson (changed_flag c p status)
       end.

(** Running argument vectors one after the other from a file system:
    the exit statuses, in order, and the file system reached. *)
Fixpoint replay (argvs : list (list string)) (t : FS) : list Z * FS :=
  match argvs with
  | [] => ([], t)
  | argv :: rest =>
      let '((rc, _, _), t') := hdfs argv t in
      let '(codes, t'') := replay rest t' in
      (rc :: codes, t'')
  end.

(** Whether an outcome carries a [changed] flag. *)
Definition reports_changed (s : stop) : bool :=
  match s with
  | ExitJson _ => true
  | _ => false
  end.

End Vocabulary.

(* ===================================================================== *)
(** ** How a run on an [HdfsContextCli] unfolds *)
(* ===================================================================== *)

Section Unfolding.
Context {B : Backend}.
Import HdfsUtils hdfs_file.

(** The state step follows the coverage table. *)
Lemma resolv_states_run c module p status w :
  st_state status <> state_str (state p) ->
  resolv_states module p (HdfsContextCli.new c) status w =
  match transition_table c (path p) (st_state status) (state p) with
  | Unsupported msg => (inl (FailJson msg), w)
  | Call what argv =>
      match run_all [(what, argv)] w with
      | (Some msg, w') => (inl (FailJson msg), w')
      | (None, w') => (inr true, w')
      end
  end.
Proof.
  intros Hd.
  unfold resolv_states, transition_table, names_both.
  destruct (state p); simpl in *;
    destruct (String.eqb_spec (st_state status) "absent") as [Ha|Ha];
    destruct (String.eqb_spec (st_state status) "file") as [Hf|Hf];
    destruct (String.eqb_spec (st_state status) "directory") as [Hdir|Hdir];
    try congruence; simpl.
  all: unfold try_HdfsUtilsError, bind, fail_json, halt, ret, HdfsContextCli.mkdir,
    HdfsContextCli.touch, HdfsContextCli.remove, bind, Popen, HdfsContextCli.check, raise, halt; simpl.
  all: try reflexivity.
  all: unfold HdfsContextCli.mkdir_cmd, HdfsContextCli.touch_cmd, HdfsContextCli.remove_cmd; simpl.
  all: destruct (hdfs _ (fs w)) as [[[rc out] err] fs']; simpl.
  all: destruct (rc =? 0); simpl; reflexivity.
Qed.

(** [main] after its query: the state step, then [finish]. *)
Lemma reconcile_run c module w :
  run (reconcile module (HdfsContextCli.new c)) w =
  match HdfsContextCli.stats c (path (params module)) w with
  | (inl s, w1) => (s, w1)
  | (inr status, w1) =>
      if negb (String.eqb (st_state status) (state_str (state (params module)))) then
        match resolv_states module (params module) (HdfsContextCli.new c) status w1 with
        | (inl s, w2) => (s, w2)
        | (inr _, w2) => finish c (params module) status true w2
        end
      else finish c (params module) status false w1
  end.
Proof.
  unfold run, reconcile, finish, attributes_phase, attribute_calls.
  unfold bind at 1. simpl getattr. unfold bind at 1. unfold ret at 1.
  destruct (HdfsContextCli.stats c (path (params module)) w) as [[s|status] w1]; [reflexivity|].
  set (p := params module).
  unfold bind at 1.
  assert (Hnone : replication p = None -> should_modify status p Replication = false).
  { unfold should_modify. simpl. intros ->. reflexivity. }
  assert (Htail : forall changed w2,
    match
      (bind (if String.eqb (state_str (state p)) "absent" then exit_json changed else ret tt)
        (fun _ =>
          bind (if should_modify status p Owner
                then bind (getattr "chown" (chown (HdfsContextCli.new c)))
                       (fun f => bind (f (path p) (owner p) None (recurse p)) (fun _ => ret true))
                else ret changed)
           (fun changed =>
             bind (if should_modify status p Group
                   then bind (getattr "chown" (chown (HdfsContextCli.new c)))
                          (fun f => bind (f (path p) None (group p) (recurse p)) (fun _ => ret true))
                   else ret changed)
              (fun changed =>
                bind (if should_modify status p Replication
                      then bind (getattr "setrep" (setrep (HdfsContextCli.new c)))
                             (fun f => bind (match replication p with
                                             | Some factor => f (path p) factor
                                             | None => raise (TypeError "expected a string")
                                             end) (fun _ => ret true))
                      else ret changed)
                  (fun changed =>
                    bind (match mode p with
                          | Some m =>
                              bind (getattr "chmod" (chmod (HdfsContextCli.new c)))
                                (fun f => bind (f (path p) m (recurse p)) (fun _ => ret true))
                          | None => ret changed
                          end)
                      (fun changed => @exit_json _ Empty_set changed)))))) w2
    with
    | (inl s, w') => (s, w')
    | (inr e, _) => match e return stop * World with end
    end
    = (if String.eqb (state_str (state p)) "absent" then (ExitJson changed, w2)
       else
         match run_all (attribute_calls c p status) w2 with
         | (Some msg, w') => (Raise (HdfsUtilsError msg), w')
         | (None, w') =>
             (ExitJson (changed || negb (Nat.eqb (length (attribute_calls c p status)) 0)), w')
         end)).
  { intros changed w2. unfold attribute_calls. unfold bind at 1.
    destruct (String.eqb (state_str (state p)) "absent"); [reflexivity|].
    unfold ret at 1. fold p.
    destruct (replication p) as [factor|]; [|rewrite (Hnone eq_refl)];
      destruct (should_modify status p Owner), (should_modify status p Group),
        (mode p); try destruct (should_modify status p Replication);
      simpl; unfold bind, ret, exit_json, halt, HdfsContextCli.chown, HdfsContextCli.chmod,
        HdfsContextCli.setrep, bind, Popen, HdfsContextCli.check, raise, halt, ret; simpl;
      repeat match goal with
        | |- context [hdfs ?a ?f] =>
            let rc := fresh "rc" in
            destruct (hdfs a f) as [[[rc ?] ?] ?]; simpl; destruct (rc =? 0); simpl
        end; try reflexivity; destruct changed; reflexivity. }
  destruct (negb (String.eqb (st_state status) (state_str (state p)))).
  - unfold bind at 1.
    destruct (resolv_states module p (HdfsContextCli.new c) status w1) as [[s|b] w2]; [reflexivity|].
    unfold ret at 1. apply Htail.
  - unfold ret at 1. apply Htail.
Qed.

End Unfolding.

(* ===================================================================== *)
(** ** The processes a run starts *)
(* ===================================================================== *)

Section Traces.
Context {B : Backend}.
Import HdfsUtils hdfs_file.

Lemma issued_app (w w' : World) tr :
  spawned w' = (spawned w ++ tr)%list -> issued w w' = tr.
Proof.
  unfold issued. intros ->.
  rewrite skipn_app, Nat.sub_diag, skipn_all. reflexivity.
Qed.

Lemma run_all_spawned calls :
  forall w r w', run_all calls w = (r, w') ->
    (exists k, spawned w' = (spawned w ++ firstn k (map snd calls))%list) /\
    (r = None -> spawned w' = (spawned w ++ map snd calls)%list).
Proof.
  induction calls as [|[what argv] rest IH]; simpl; intros w r w' H.
  - inversion H; subst. split; [exists 0%nat|intros _]; simpl; now rewrite app_nil_r.
  - destruct (hdfs argv (fs w)) as [[[rc out] err] fs'].
    destruct (rc =? 0); simpl in H.
    + apply IH in H. destruct H as [[k Hk] Hn]. simpl in Hk, Hn. split.
      * exists (S k). rewrite Hk. simpl. now rewrite <- app_assoc.
      * intros Hr. rewrite (Hn Hr). now rewrite <- app_assoc.
    + inversion H; subst. split; [|discriminate].
      exists 1%nat. reflexivity.
Qed.

Lemma stats_spawned c p (w : World) r w1 :
  HdfsContextCli.stats c p w = (r, w1) ->
  spawned w1 = (spawned w ++ [HdfsContextCli.stats_cmd c p])%list.
Proof.
  unfold HdfsContextCli.stats, bind, Popen.
  destruct (hdfs _ (fs w)) as [[[rc out] err] fs'].
  destruct (negb (rc =? 0)); [|destruct (HdfsContextCli.parse out)];
    intros H; inversion H; reflexivity.
Qed.

Lemma finish_plan c p status changed (w1 : World) s w' :
  finish c p status changed w1 = (s, w') ->
  let tail := if String.eqb (state_str (state p)) "absent" then []
              else map snd (attribute_calls c p status) in
  (exists k, spawned w' = (spawned w1 ++ firstn k tail)%list) /\
  (forall ch, s = ExitJson ch ->
     spawned w' = (spawned w1 ++ tail)%list /\
     ch = (changed || (negb (String.eqb (state_str (state p)) "absent")
                      && negb (Nat.eqb (length (attribute_calls c p status)) 0)))%bool).
Proof.
  unfold finish, attributes_phase.
  destruct (String.eqb (state_str (state p)) "absent"); simpl.
  - intros H; inversion H; subst. split.
    + exists 0%nat. now rewrite app_nil_r.
    + intros ch Hc; inversion Hc; subst. rewrite app_nil_r, orb_false_r. auto.
  - destruct (run_all (attribute_calls c p status) w1) as [r w2] eqn:Hrun.
    apply run_all_spawned in Hrun. destruct Hrun as [Hk Hn].
    destruct r; intros H; inversion H; subst; split; auto.
    + discriminate.
    + intros ch Hc; inversion Hc; subst. auto.
Qed.

Lemma reconcile_plan c module (w : World) status w1 s w' :
  HdfsContextCli.stats c (path (params module)) w = (inr status, w1) ->
  run (reconcile module (HdfsContextCli.new c)) w = (s, w') ->
  (exists k, spawned w' = (spawned w1 ++ firstn k (plan c (params module) status))%list) /\
  (forall ch, s = ExitJson ch ->
     spawned w' = (spawned w1 ++ plan c (params module) status)%list /\
     ch = changed_flag c (params module) status).
Proof.
  intros Hst. rewrite reconcile_run, Hst.
  set (p := params module).
  unfold plan, changed_flag, transition_calls.
  destruct (String.eqb_spec (st_state status) (state_str (state p))) as [He|Hne]; simpl.
  - intros H. apply finish_plan in H. exact H.
  - rewrite (resolv_states_run c module p status w1 Hne).
    destruct (transition_table c (path p) (st_state status) (state p)) as [msg|what argv].
    + intros H; inversion H; subst. split.
      * exists 0%nat. now rewrite app_nil_r.
      * discriminate.
    + destruct (run_all [(what, argv)] w1) as [r w2] eqn:Hrun.
      apply run_all_spawned in Hrun. destruct Hrun as [[k1 Hk1] Hn]. simpl in Hn.
      destruct r as [msg|].
      * intros H; inversion H; subst. split; [|discriminate].
        exists (Nat.min k1 1). rewrite Hk1. f_equal.
        rewrite firstn_app. simpl map.
        destruct k1 as [|[|k1]]; simpl; reflexivity.
      * intros H. apply finish_plan in H. destruct H as [[k Hk] Hex].
        rewrite (Hn eq_refl) in *. split.
        -- exists (S k). simpl. rewrite Hk. now rewrite <- app_assoc.
        -- intros ch Hc. destruct (Hex ch Hc) as [H1 H2]. split.
           ++ rewrite H1. now rewrite <- app_assoc.
           ++ exact H2.
Qed.
End Traces.

(* ===================================================================== *)
(** ** Splitting the answer of the status query *)
(* ===================================================================== *)

(** The separator has no proper prefix that is also a suffix, so a field
    free of it cannot complete an occurrence with the separator that
    follows. *)
Lemma prefix_SEP_border c f rest :
  String.prefix "[SEP]" (String c f) = false ->
  String.prefix "[SEP]" (String c f ++ "[SEP]" ++ rest) = false.
Proof.
  intros H.
  destruct f as [|c1 [|c2 [|c3 [|c4 f]]]]; cbn [String.prefix append] in *;
    repeat match goal with
      | |- context [Ascii.ascii_dec ?a ?b] => destruct (Ascii.ascii_dec a b); subst; try discriminate
      | H : context [Ascii.ascii_dec ?a ?b] |- _ => destruct (Ascii.ascii_dec a b); subst; try discriminate
      end; try reflexivity; try congruence.
  destruct f; cbn [String.prefix] in H; discriminate.
Qed.

Lemma append_assoc_cons cur c f : (cur ++ String c "") ++ f = cur ++ String c f.
Proof. induction cur; simpl; congruence. Qed.

Lemma append_nil_r s : s ++ "" = s.
Proof. induction s; simpl; congruence. Qed.

Lemma split_field f : forall cur rest,
  Py.occurs "[SEP]" f = false ->
  Py.split_go "[SEP]" 0 cur (f ++ "[SEP]" ++ rest)
  = (cur ++ f) :: Py.split_go "[SEP]" 0 "" rest.
Proof.
  induction f as [|c f IH]; intros cur rest H.
  - rewrite append_nil_r. simpl. destruct rest; reflexivity.
  - cbn [Py.occurs] in H. apply orb_false_iff in H. destruct H as [Hp Ho].
    change (String c f ++ "[SEP]" ++ rest) with (String c (f ++ "[SEP]" ++ rest)).
    cbn [Py.split_go].
    change (String c (f ++ "[SEP]" ++ rest)) with (String c f ++ "[SEP]" ++ rest).
    rewrite (prefix_SEP_border c f rest Hp).
    rewrite IH by exact Ho. now rewrite append_assoc_cons.
Qed.

Lemma split_last f : forall cur,
  Py.occurs "[SEP]" f = false ->
  Py.split_go "[SEP]" 0 cur f = [cur ++ f].
Proof.
  induction f as [|c f IH]; intros cur H.
  - now rewrite append_nil_r.
  - cbn [Py.occurs] in H. apply orb_false_iff in H. destruct H as [Hp Ho].
    cbn [Py.split_go]. rewrite Hp. rewrite IH by exact Ho. now rewrite append_assoc_cons.
Qed.

Lemma split_four F u g r :
  Py.occurs "[SEP]" F = false -> Py.occurs "[SEP]" u = false ->
  Py.occurs "[SEP]" g = false -> Py.occurs "[SEP]" r = false ->
  Py.split "[SEP]" (F ++ "[SEP]" ++ u ++ "[SEP]" ++ g ++ "[SEP]" ++ r) = [F; u; g; r].
Proof.
  intros HF Hu Hg Hr. unfold Py.split.
  rewrite split_field by exact HF. rewrite split_field by exact Hu.
  rewrite split_field by exact Hg. rewrite split_last by exact Hr. reflexivity.
Qed.

(* ===================================================================== *)
(** ** Loading the utilities module *)
(* ===================================================================== *)

(** C9.  Running the top-level statements of [HdfsUtils.py] raises
    [NotImplementedError], whatever the circumstances: the statements
    before [class HdfsContextLib] complete, and that class statement runs
    its body, a bare [raise], when it is reached.  An importer is
    therefore left without the module: no name of the file, and in
    particular neither [HdfsContextCli] nor [HdfsCheckMode], can be
    obtained through an import. *)
Theorem import_raises_NotImplementedError :
  HdfsUtils.import_module = inl NotImplementedError /\
  In (HdfsUtils.Class "HdfsContextLib" [HdfsUtils.RaiseStmt NotImplementedError])
     HdfsUtils.source /\
  (forall ns,
     HdfsUtils.exec (HdfsUtils.Class "HdfsContextLib" [HdfsUtils.RaiseStmt NotImplementedError]) ns
     = inl NotImplementedError) /\
  (exists ns,
     HdfsUtils.exec_block (firstn 7 HdfsUtils.source) [] = inr ns /\
     nth_error HdfsUtils.source 7
     = Some (HdfsUtils.Class "HdfsContextLib" [HdfsUtils.RaiseStmt NotImplementedError])) /\
  (forall name, HdfsUtils.from_import name = inl NotImplementedError).
Proof.
  repeat split.
  - simpl. tauto.
  - eexists. split; reflexivity.
Qed.

(* ===================================================================== *)
(** ** The target of [chown] *)
(* ===================================================================== *)

Section Chown.
Context {B : Backend}.
Import HdfsUtils.

Lemma truthy_nonempty s : s <> "" -> Py.truthy_str s = true.
Proof. destruct s; [congruence|reflexivity]. Qed.

(** C10.  When [chown] is called with both [owner] and [group] set to
    non-empty strings, the target placed in the command is the owner
    alone: the command is the one of a call without [group].  The group
    appears, as [":" + group], only when the owner is [None] or empty. *)
Theorem chown_target_drops_group (c path o g : string) (recurse : option string)
    (w : World) :
  o <> "" -> g <> "" ->
  HdfsContextCli.chown_target (Some o) (Some g) = o /\
  HdfsContextCli.chown_cmd c path (Some o) (Some g) recurse
  = (if Py.truthy recurse then [c; "dfs"; "-chown"; "-R"; o; path]
     else [c; "dfs"; "-chown"; o; path]) /\
  HdfsContextCli.chown_cmd c path (Some o) (Some g) recurse
  = HdfsContextCli.chown_cmd c path (Some o) None recurse /\
  spawned (snd (HdfsContextCli.chown c path (Some o) (Some g) recurse w))
  = (spawned w ++ [if Py.truthy recurse then [c; "dfs"; "-chown"; "-R"; o; path]
                   else [c; "dfs"; "-chown"; o; path]])%list /\
  HdfsContextCli.chown_target None (Some g) = ":" ++ g /\
  HdfsContextCli.chown_target (Some "") (Some g) = ":" ++ g.
Proof.
  intros Ho Hg.
  assert (Ht : HdfsContextCli.chown_target (Some o) (Some g) = o).
  { unfold HdfsContextCli.chown_target. now rewrite (truthy_nonempty o Ho). }
  assert (Hc : HdfsContextCli.chown_cmd c path (Some o) (Some g) recurse
               = (if Py.truthy recurse then [c; "dfs"; "-chown"; "-R"; o; path]
                  else [c; "dfs"; "-chown"; o; path])).
  { unfold HdfsContextCli.chown_cmd. rewrite Ht. destruct (Py.truthy recurse); reflexivity. }
  repeat split.
  - exact Ht.
  - exact Hc.
  - unfold HdfsContextCli.chown_cmd. rewrite Ht.
    unfold HdfsContextCli.chown_target. now rewrite (truthy_nonempty o Ho).
  - unfold HdfsContextCli.chown, bind, Popen. rewrite Hc.
    destruct (hdfs _ (fs w)) as [[[rc out] err] fs'].
    unfold HdfsContextCli.check. destruct (negb (rc =? 0)); reflexivity.
  - unfold HdfsContextCli.chown_target. now rewrite (truthy_nonempty g Hg).
  - unfold HdfsContextCli.chown_target. simpl. now rewrite (truthy_nonempty g Hg).
Qed.

End Chown.

Lemma chown_target_drops_group_witness :
  "myuser" <> "" /\ "mygroup" <> "" /\
  @HdfsUtils.HdfsContextCli.chown_cmd "/bin/hdfs" "/tmp/myfolder"
     (Some "myuser") (Some "mygroup") None
  = ["/bin/hdfs"; "dfs"; "-chown"; "myuser"; "/tmp/myfolder"].
Proof.
  assert (H1 : "myuser" <> "") by discriminate.
  assert (H2 : "mygroup" <> "") by discriminate.
  split; [exact H1|]. split; [exact H2|].
  exact (proj1 (proj2 (@chown_target_drops_group Double.backend "/bin/hdfs" "/tmp/myfolder"
                         "myuser" "mygroup" None (Double.world []) H1 H2))).
Defined.

(* ===================================================================== *)
(** ** The status query *)
(* ===================================================================== *)

Section Stats.
Context {B : Backend}.
Import HdfsUtils.

Lemma parse_fields F u g r n :
  Py.occurs "[SEP]" F = false -> Py.occurs "[SEP]" u = false ->
  Py.occurs "[SEP]" g = false -> Py.occurs "[SEP]" r = false ->
  Py.int r = Some n ->
  forall out, Py.strip out = F ++ "[SEP]" ++ u ++ "[SEP]" ++ g ++ "[SEP]" ++ r ->
  HdfsContextCli.parse out
  = inr {| st_state := if String.eqb F "regular file" then "file" else F;
           st_owner := Some u; st_group := Some g; st_replication := Some n |}.
Proof.
  intros HF Hu Hg Hr Hn out Hout. unfold HdfsContextCli.parse.
  rewrite Hout, (split_four F u g r HF Hu Hg Hr), Hn. reflexivity.
Qed.

(** C7.  [stats] on the answer [(rc, out, err)] of the [-stat] process.
    When the process fails ([rc] is not 0) [stats] does not raise: it
    returns the dictionary with state ["absent"] and [None] for owner,
    group and replication.  When it succeeds with the four fields the
    format asks for, [F], [u], [g] and a number [r], separated by
    ["[SEP]"], [stats] returns them all: the state is [F] with
    ["regular file"] replaced by ["file"], the owner [u], the group [g],
    the replication [int(r)]. *)
Theorem stats_absent_or_populated (c path : string) (w : World)
    (rc : Z) (out err : string) (fs' : FS) :
  hdfs (HdfsContextCli.stats_cmd c path) (fs w) = ((rc, out, err), fs') ->
  (rc <> 0 ->
   HdfsContextCli.stats c path w
   = (inr {| st_state := "absent"; st_owner := None; st_group := None;
             st_replication := None |},
      after w (HdfsContextCli.stats_cmd c path) fs')) /\
  (rc = 0 ->
   forall F u g r n,
     Py.strip out = F ++ "[SEP]" ++ u ++ "[SEP]" ++ g ++ "[SEP]" ++ r ->
     Py.occurs "[SEP]" F = false -> Py.occurs "[SEP]" u = false ->
     Py.occurs "[SEP]" g = false -> Py.occurs "[SEP]" r = false ->
     Py.int r = Some n ->
     HdfsContextCli.stats c path w
     = (inr {| st_state := if String.eqb F "regular file" then "file" else F;
               st_owner := Some u; st_group := Some g; st_replication := Some n |},
        after w (HdfsContextCli.stats_cmd c path) fs')).
Proof.
  intros Hrun. unfold HdfsContextCli.stats, bind, Popen. rewrite Hrun. split.
  - intros Hrc. apply Z.eqb_neq in Hrc. rewrite Hrc. reflexivity.
  - intros -> F u g r n Hout HF Hu Hg Hr Hn. simpl.
    rewrite (parse_fields F u g r n HF Hu Hg Hr Hn out Hout). reflexivity.
Qed.

End Stats.

Lemma stats_absent_or_populated_witness :
  HdfsUtils.HdfsContextCli.stats "/bin/hdfs" "/tmp/myfile" (Double.world [])
  = (inr {| HdfsUtils.st_state := "absent"; HdfsUtils.st_owner := None;
            HdfsUtils.st_group := None; HdfsUtils.st_replication := None |},
     after (Double.world []) (HdfsUtils.HdfsContextCli.stats_cmd "/bin/hdfs" "/tmp/myfile") [])
  /\
  let t := [("/tmp/myfile",
             {| Double.kind := "regular file"; Double.e_owner := "a";
                Double.e_group := "a"; Double.e_replication := 2 |})] in
  HdfsUtils.HdfsContextCli.stats "/bin/hdfs" "/tmp/myfile" (Double.world t)
  = (inr {| HdfsUtils.st_state := "file"; HdfsUtils.st_owner := Some "a";
            HdfsUtils.st_group := Some "a"; HdfsUtils.st_replication := Some 2 |},
     after (Double.world t) (HdfsUtils.HdfsContextCli.stats_cmd "/bin/hdfs" "/tmp/myfile") t).
Proof.
  split.
  - refine (proj1 (@stats_absent_or_populated Double.backend "/bin/hdfs" "/tmp/myfile"
                     (Double.world []) 1 "" "stat: No such file or directory" []
                     eq_refl) _).
    discriminate.
  - intros t.
    refine (proj2 (@stats_absent_or_populated Double.backend "/bin/hdfs" "/tmp/myfile"
                     (Double.world t) 0
                     ("regular file[SEP]a[SEP]a[SEP]2" ++ String "010"%char "") "" t
                     eq_refl) eq_refl "regular file" "a" "a" "2" 2 _ _ _ _ _ _);
      reflexivity.
Defined.

(* ===================================================================== *)
(** ** The state step *)
(* ===================================================================== *)

Section StateStep.
Context {B : Backend}.
Import HdfsUtils hdfs_file.

(** C4.  For a current state and a desired state that differ,
    [resolv_states] follows the coverage table [transition_table]:
    absent to file fails without starting a process; absent to directory
    starts [-mkdir -p]; absent or file to touch starts [-touchz]; file to
    absent starts [-rm]; directory to absent starts [-rm -r]; every other
    pair fails, without starting a process, with a message naming both
    states.  When a process is started it is the only one, and the step
    returns [True] if it exits with status 0 and fails with the text of
    the [HdfsUtilsError] otherwise. *)
Theorem resolv_states_coverage (c : string) (module : AnsibleModule) (p : Params)
    (status : Status) (w : World) :
  st_state status <> state_str (state p) ->
  match transition_table c (path p) (st_state status) (state p) with
  | Unsupported msg =>
      resolv_states module p (HdfsContextCli.new c) status w = (inl (FailJson msg), w)
  | Call what argv =>
      let '((rc, out, err), fs') := hdfs argv (fs w) in
      resolv_states module p (HdfsContextCli.new c) status w
      = (if rc =? 0 then inr true
         else inl (FailJson ("subprocess " ++ what ++ " stderr: " ++ err)),
         after w argv fs')
  end.
Proof.
  intros Hd. rewrite (resolv_states_run c module p status w Hd).
  destruct (transition_table c (path p) (st_state status) (state p)) as [msg|what argv];
    [reflexivity|].
  simpl. destruct (hdfs argv (fs w)) as [[[rc out] err] fs'].
  destruct (rc =? 0); reflexivity.
Qed.

End StateStep.

Lemma resolv_states_coverage_witness :
  let p := {| hdfs_file.group := None; hdfs_file.method := hdfs_file.command;
              hdfs_file.mode := None; hdfs_file.owner := None;
              hdfs_file.path := "/tmp/myfolder"; hdfs_file.recurse := None;
              hdfs_file.replication := None; hdfs_file.state := hdfs_file.directory |} in
  let m := {| hdfs_file.params := p; hdfs_file.check_mode := false |} in
  "absent" <> "directory" /\
  hdfs_file.resolv_states m p Double.cli HdfsUtils.HdfsContextCli.result0 (Double.world [])
  = (inr true,
     after (Double.world []) ["/bin/hdfs"; "dfs"; "-mkdir"; "-p"; "/tmp/myfolder"]
       [("/tmp/myfolder", Double.new_dir)]).
Proof.
  intros p m.
  assert (H : "absent" <> "directory") by discriminate.
  split; [exact H|].
  exact (@resolv_states_coverage Double.backend "/bin/hdfs" m p
           HdfsUtils.HdfsContextCli.result0 (Double.world []) H).
Defined.

(* ===================================================================== *)
(** ** Desired state [absent] *)
(* ===================================================================== *)

Section Absent.
Context {B : Backend}.
Import HdfsUtils hdfs_file.

Lemma Forall_firstn {A} (P : A -> Prop) (k : nat) (l : list A) :
  Forall P l -> Forall P (firstn k l).
Proof.
  intros H. revert k. induction H as [|x l Hx Hl IH]; intros [|k]; simpl; auto.
Qed.

Lemma absent_plan c p status :
  state p = absent ->
  Forall (fun argv => is_attribute_op argv = false) (plan c p status).
Proof.
  intros Hs. unfold plan, transition_calls, transition_table. rewrite Hs. simpl.
  rewrite app_nil_r.
  destruct (String.eqb (st_state status) "absent"); simpl; [constructor|].
  destruct (String.eqb (st_state status) "file"); simpl; [repeat constructor|].
  destruct (String.eqb (st_state status) "directory"); simpl; repeat constructor.
Qed.

(** C8.  With [state=absent], [main] stops at the [exit_json] that
    follows the state step: when the path is already absent it reports
    [changed=false] straight after the query; otherwise it ends as the
    state step ends, reporting [changed=true] when the step succeeds.
    Whatever [owner], [group], [replication] and [mode] are, and however
    the run ends, no [-chown], [-setrep] or [-chmod] process is
    started. *)
Theorem absent_skips_attributes (c : string) (module : AnsibleModule) (w : World) :
  state (params module) = absent ->
  let p := params module in
  let r := run (reconcile module (HdfsContextCli.new c)) w in
  Forall (fun argv => is_attribute_op argv = false) (issued w (snd r)) /\
  forall status w1,
    HdfsContextCli.stats c (path p) w = (inr status, w1) ->
    (st_state status = "absent" -> r = (ExitJson false, w1)) /\
    (st_state status <> "absent" ->
     match resolv_states module p (HdfsContextCli.new c) status w1 with
     | (inl s, w2) => r = (s, w2)
     | (inr _, w2) => r = (ExitJson true, w2)
     end).
Proof.
  intros Hs p r. change (state p = absent) in Hs. split.
  - subst r.
    destruct (HdfsContextCli.stats c (path p) w) as [[s|status] w1] eqn:Hst.
    + rewrite reconcile_run. fold p. rewrite Hst. simpl.
      rewrite (issued_app w w1 _ (stats_spawned c (path p) w _ w1 Hst)).
      repeat constructor.
    + destruct (run (reconcile module (HdfsContextCli.new c)) w) as [s w'] eqn:Hrun.
      destruct (reconcile_plan c module w status w1 s w' Hst Hrun) as [[k Hk] _].
      simpl. rewrite (stats_spawned c (path p) w _ w1 Hst) in Hk.
      rewrite <- app_assoc in Hk. rewrite (issued_app w w' _ Hk). simpl.
      constructor; [reflexivity|].
      apply Forall_firstn. apply absent_plan. exact Hs.
  - intros status w1 Hst. subst r. rewrite reconcile_run. fold p. rewrite Hst.
    unfold finish. rewrite Hs. simpl. split.
    + intros Ha. rewrite Ha. reflexivity.
    + intros Hn. apply String.eqb_neq in Hn. rewrite Hn. simpl.
      destruct (resolv_states module p (HdfsContextCli.new c) status w1) as [[s|b] w2];
        reflexivity.
Qed.

End Absent.

Lemma absent_skips_attributes_witness :
  let p := {| hdfs_file.group := Some "mygroup"; hdfs_file.method := hdfs_file.command;
              hdfs_file.mode := Some "0755"; hdfs_file.owner := Some "myuser";
              hdfs_file.path := "/tmp/myfolder"; hdfs_file.recurse := None;
              hdfs_file.replication := Some "2"; hdfs_file.state := hdfs_file.absent |} in
  let m := {| hdfs_file.params := p; hdfs_file.check_mode := false |} in
  let w := Double.world [("/tmp/myfolder", Double.new_dir)] in
  hdfs_file.state p = hdfs_file.absent /\
  Forall (fun argv => is_attribute_op argv = false)
    (issued w (snd (hdfs_file.run (hdfs_file.reconcile m Double.cli) w))).
Proof.
  intros p m w. split; [reflexivity|].
  exact (proj1 (@absent_skips_attributes Double.backend "/bin/hdfs" m w eq_refl)).
Defined.

Example absent_removes_directory :
  let p := {| hdfs_file.group := None; hdfs_file.method := hdfs_file.command;
              hdfs_file.mode := Some "0755"; hdfs_file.owner := Some "myuser";
              hdfs_file.path := "/tmp/myfolder"; hdfs_file.recurse := None;
              hdfs_file.replication := None; hdfs_file.state := hdfs_file.absent |} in
  let m := {| hdfs_file.params := p; hdfs_file.check_mode := false |} in
  let w := Double.world [("/tmp/myfolder", Double.new_dir)] in
  hdfs_file.run (hdfs_file.reconcile m Double.cli) w
  = (ExitJson true,
     Double.logged []
       [["/bin/hdfs"; "dfs"; "-stat"; "%F[SEP]%u[SEP]%g[SEP]%r"; "/tmp/myfolder"];
        ["/bin/hdfs"; "dfs"; "-rm"; "-r"; "/tmp/myfolder"]]).
Proof. reflexivity. Qed.

(* ===================================================================== *)
(** ** Runs that complete *)
(* ===================================================================== *)

Section Completed.
Context {B : Backend}.
Import HdfsUtils hdfs_file.

(** A run that reports a flag has found a status, has started the query
    and then its whole plan, and reports the flag of that status. *)
Lemma exit_run c module (w : World) ch w' :
  run (reconcile module (HdfsContextCli.new c)) w = (ExitJson ch, w') ->
  exists status w1,
    HdfsContextCli.stats c (path (params module)) w = (inr status, w1) /\
    issued w w' = HdfsContextCli.stats_cmd c (path (params module))
                  :: plan c (params module) status /\
    ch = changed_flag c (params module) status.
Proof.
  intros Hrun.
  destruct (HdfsContextCli.stats c (path (params module)) w) as [[s|status] w1] eqn:Hst.
  - rewrite reconcile_run, Hst in Hrun. inversion Hrun; subst.
    unfold HdfsContextCli.stats, bind, Popen in Hst.
    destruct (hdfs _ (fs w)) as [[[rc out] err] fs'].
    destruct (negb (rc =? 0)); [discriminate|].
    destruct (HdfsContextCli.parse out); discriminate.
  - exists status, w1. split; [reflexivity|].
    destruct (reconcile_plan c module w status w1 _ w' Hst Hrun) as [_ Hex].
    destruct (Hex ch eq_refl) as [Hsp Hch]. split; [|exact Hch].
    apply issued_app. rewrite Hsp, (stats_spawned c _ w _ w1 Hst).
    now rewrite <- app_assoc.
Qed.

Lemma not_absent s : s <> absent -> String.eqb (state_str s) "absent" = false.
Proof. destruct s; intros H; try reflexivity. congruence. Qed.

Lemma should_modify_touch status p k :
  state p = touch -> should_modify status p k = negb (is_None (params_get p k)).
Proof.
  intros Hs. unfold should_modify. rewrite Hs. simpl.
  destruct (is_None (params_get p k)); reflexivity.
Qed.

Lemma attribute_calls_touch c p status :
  state p = touch -> map snd (attribute_calls c p status) = touch_calls c p.
Proof.
  intros Hs. unfold attribute_calls, touch_calls.
  rewrite !(should_modify_touch status p _ Hs). simpl.
  destruct (owner p), (group p), (replication p), (mode p); reflexivity.
Qed.

Lemma length_zero_nil {A} (l : list A) : negb (Nat.eqb (length l) 0) = true <-> l <> [].
Proof. destruct l; simpl; split; congruence. Qed.

(** C5.  With [state=touch], [should_modify] answers [True] for every
    option that is set, whatever the status holds.  Hence two runs in a
    row with the same parameters, the second on the world the first
    leaves, each end their sequence of processes with the same attribute
    processes, one per option that is set, and each report
    [changed=true] as soon as one option is set. *)
Theorem touch_reapplies (c : string) (module : AnsibleModule) :
  state (params module) = touch ->
  let p := params module in
  (forall status k, is_None (params_get p k) = false -> should_modify status p k = true) /\
  (forall (w : World) ch1 w1 ch2 w2,
     run (reconcile module (HdfsContextCli.new c)) w = (ExitJson ch1, w1) ->
     run (reconcile module (HdfsContextCli.new c)) w1 = (ExitJson ch2, w2) ->
     (exists pre1 pre2,
        issued w w1 = (pre1 ++ touch_calls c p)%list /\
        issued w1 w2 = (pre2 ++ touch_calls c p)%list) /\
     (touch_calls c p <> [] -> ch1 = true /\ ch2 = true)).
Proof.
  intros Hs p. change (state p = touch) in Hs. split.
  - intros status k Hk. rewrite (should_modify_touch status p k Hs), Hk. reflexivity.
  - assert (Hone : forall (w : World) ch w',
      run (reconcile module (HdfsContextCli.new c)) w = (ExitJson ch, w') ->
      (exists pre, issued w w' = (pre ++ touch_calls c p)%list) /\
      (touch_calls c p <> [] -> ch = true)).
    { intros w ch w' Hrun.
      destruct (exit_run c module w ch w' Hrun) as (status & wa & _ & Hi & Hch).
      fold p in Hi, Hch. split.
      - exists (HdfsContextCli.stats_cmd c (path p) :: map snd (transition_calls c p status)).
        rewrite Hi. unfold plan. rewrite Hs. simpl.
        now rewrite (attribute_calls_touch c p status Hs).
      - intros Hne. rewrite Hch. unfold changed_flag. rewrite Hs. simpl.
        rewrite <- (attribute_calls_touch c p status Hs) in Hne.
        rewrite <- (length_map snd).
        apply length_zero_nil in Hne. rewrite Hne. apply orb_true_r. }
    intros w ch1 w1 ch2 w2 H1 H2.
    destruct (Hone w ch1 w1 H1) as [[pre1 Hp1] Hc1].
    destruct (Hone w1 ch2 w2 H2) as [[pre2 Hp2] Hc2].
    split; [exists pre1, pre2; split; assumption|].
    intros Hne. split; auto.
Qed.

End Completed.

Lemma touch_reapplies_witness :
  let p := {| hdfs_file.group := None; hdfs_file.method := hdfs_file.command;
              hdfs_file.mode := None; hdfs_file.owner := Some "a";
              hdfs_file.path := "/tmp/myfile"; hdfs_file.recurse := None;
              hdfs_file.replication := Some "2"; hdfs_file.state := hdfs_file.touch |} in
  let m := {| hdfs_file.params := p; hdfs_file.check_mode := false |} in
  let w := Double.world [("/tmp/myfile",
                          {| Double.kind := "regular file"; Double.e_owner := "a";
                             Double.e_group := "a"; Double.e_replication := 2 |})] in
  hdfs_file.state p = hdfs_file.touch /\
  hdfs_file.should_modify
    {| HdfsUtils.st_state := "file"; HdfsUtils.st_owner := Some "a";
       HdfsUtils.st_group := Some "a"; HdfsUtils.st_replication := Some 2 |}
    p hdfs_file.Owner = true /\
  fst (hdfs_file.run (hdfs_file.reconcile m Double.cli) w) = ExitJson true /\
  fst (hdfs_file.run (hdfs_file.reconcile m Double.cli)
         (snd (hdfs_file.run (hdfs_file.reconcile m Double.cli) w))) = ExitJson true.
Proof.
  intros p m w.
  destruct (@touch_reapplies Double.backend "/bin/hdfs" m eq_refl) as [Hsm Hruns].
  split; [reflexivity|]. split; [apply Hsm; reflexivity|].
  destruct (Hruns w true _ true _ eq_refl eq_refl) as [_ Hch].
  split; reflexivity.
Defined.

Example touch_twice :
  let p := {| hdfs_file.group := None; hdfs_file.method := hdfs_file.command;
              hdfs_file.mode := None; hdfs_file.owner := Some "a";
              hdfs_file.path := "/tmp/myfile"; hdfs_file.recurse := None;
              hdfs_file.replication := Some "2"; hdfs_file.state := hdfs_file.touch |} in
  let m := {| hdfs_file.params := p; hdfs_file.check_mode := false |} in
  let t := [("/tmp/myfile",
             {| Double.kind := "regular file"; Double.e_owner := "a";
                Double.e_group := "a"; Double.e_replication := 2 |})] in
  let r1 := hdfs_file.run (hdfs_file.reconcile m Double.cli) (Double.world t) in
  let r2 := hdfs_file.run (hdfs_file.reconcile m Double.cli) (Double.world (fs (snd r1))) in
  fs (snd r1) = t /\ r2 = r1 /\
  r1 = (ExitJson true,
        Double.logged t
          [["/bin/hdfs"; "dfs"; "-stat"; "%F[SEP]%u[SEP]%g[SEP]%r"; "/tmp/myfile"];
           ["/bin/hdfs"; "dfs"; "-touchz"; "/tmp/myfile"];
           ["/bin/hdfs"; "dfs"; "-chown"; "a"; "/tmp/myfile"];
           ["/bin/hdfs"; "dfs"; "-setrep"; "2"; "/tmp/myfile"]]).
Proof. repeat split. Qed.

(* ===================================================================== *)
(** ** The mode step *)
(* ===================================================================== *)

Section Mode.
Context {B : Backend}.
Import HdfsUtils hdfs_file.

Lemma chmod_cmd_shape c path m recurse :
  HdfsContextCli.chmod_cmd c path m recurse
  = if Py.truthy recurse then [c; "dfs"; "-chmod"; "-R"; m; path]
    else [c; "dfs"; "-chmod"; m; path].
Proof. unfold HdfsContextCli.chmod_cmd. destruct (Py.truthy recurse); reflexivity. Qed.

Lemma plan_ends_with_chmod c p status m :
  mode p = Some m -> state p <> absent ->
  exists pre,
    plan c p status = (pre ++ [HdfsContextCli.chmod_cmd c (path p) m (recurse p)])%list /\
    changed_flag c p status = true.
Proof.
  intros Hm Hs. unfold plan, changed_flag, attribute_calls.
  rewrite (not_absent _ Hs), Hm. simpl.
  eexists. split.
  - rewrite !map_app. simpl map at 4. rewrite !app_assoc. reflexivity.
  - rewrite !length_app. simpl length at 4.
    rewrite !Nat.add_assoc, Nat.add_1_r. simpl. apply orb_true_r.
Qed.

(** C6.  With [mode] set and a desired state other than [absent], a run
    that completes has started the [-chmod] process last, with [-R]
    exactly when [recurse] is true, and reports [changed=true]; the
    status plays no part.  So does a second run with the same parameters
    on the world the first one leaves. *)
Theorem mode_always_changed (c : string) (module : AnsibleModule) (m : string) :
  mode (params module) = Some m ->
  state (params module) <> absent ->
  let p := params module in
  let chmod := if Py.truthy (recurse p) then [c; "dfs"; "-chmod"; "-R"; m; path p]
               else [c; "dfs"; "-chmod"; m; path p] in
  forall (w : World) ch1 w1 ch2 w2,
    run (reconcile module (HdfsContextCli.new c)) w = (ExitJson ch1, w1) ->
    run (reconcile module (HdfsContextCli.new c)) w1 = (ExitJson ch2, w2) ->
    ch1 = true /\ last (issued w w1) [] = chmod /\
    ch2 = true /\ last (issued w1 w2) [] = chmod.
Proof.
  intros Hm Hs p chmod.
  assert (Hone : forall (w : World) ch w',
    run (reconcile module (HdfsContextCli.new c)) w = (ExitJson ch, w') ->
    ch = true /\ last (issued w w') [] = chmod).
  { intros w ch w' Hrun.
    destruct (exit_run c module w ch w' Hrun) as (status & wa & _ & Hi & Hch).
    destruct (plan_ends_with_chmod c p status m Hm Hs) as (pre & Hpl & Hfl).
    fold p in Hi, Hch. split; [congruence|].
    rewrite Hi, Hpl, app_comm_cons, last_last. apply chmod_cmd_shape. }
  intros w ch1 w1 ch2 w2 H1 H2.
  destruct (Hone w ch1 w1 H1) as [Ha Hb]. destruct (Hone w1 ch2 w2 H2) as [Hc Hd].
  repeat split; assumption.
Qed.

End Mode.

Lemma mode_always_changed_witness :
  let p := {| hdfs_file.group := None; hdfs_file.method := hdfs_file.command;
              hdfs_file.mode := Some "0644"; hdfs_file.owner := None;
              hdfs_file.path := "/tmp/myfile"; hdfs_file.recurse := Some "yes";
              hdfs_file.replication := None; hdfs_file.state := hdfs_file.file |} in
  let m := {| hdfs_file.params := p; hdfs_file.check_mode := false |} in
  let w := Double.world [("/tmp/myfile", Double.new_file)] in
  let r1 := hdfs_file.run (hdfs_file.reconcile m Double.cli) w in
  let r2 := hdfs_file.run (hdfs_file.reconcile m Double.cli) (snd r1) in
  hdfs_file.mode p = Some "0644" /\ hdfs_file.state p <> hdfs_file.absent /\
  fst r1 = ExitJson true /\ fst r2 = ExitJson true /\
  last (issued (snd r1) (snd r2)) []
  = ["/bin/hdfs"; "dfs"; "-chmod"; "-R"; "0644"; "/tmp/myfile"].
Proof.
  intros p m w r1 r2.
  assert (Hs : hdfs_file.state p <> hdfs_file.absent) by discriminate.
  split; [reflexivity|]. split; [exact Hs|].
  destruct (@mode_always_changed Double.backend "/bin/hdfs" m "0644" eq_refl Hs
              w true (snd r1) true (snd r2) eq_refl eq_refl) as (_ & _ & _ & Hl).
  split; [reflexivity|]. split; [reflexivity|]. exact Hl.
Defined.

(* ===================================================================== *)
(** ** The owner and group steps *)
(* ===================================================================== *)

Section OwnerGroup.
Context {B : Backend}.
Import HdfsUtils hdfs_file.

Lemma is_chown_chown_cmd c path o g r :
  is_chown (HdfsContextCli.chown_cmd c path o g r) = true.
Proof. unfold HdfsContextCli.chown_cmd. destruct (Py.truthy r); reflexivity. Qed.

Lemma is_chown_chmod_cmd c path m r :
  is_chown (HdfsContextCli.chmod_cmd c path m r) = false.
Proof. unfold HdfsContextCli.chmod_cmd. destruct (Py.truthy r); reflexivity. Qed.

Lemma transition_not_chown c p status :
  filter is_chown (map snd (transition_calls c p status)) = [].
Proof.
  unfold transition_calls, transition_table.
  destruct (String.eqb (st_state status) (state_str (state p))); [reflexivity|].
  destruct (state p);
    destruct (String.eqb (st_state status) "absent");
    destruct (String.eqb (st_state status) "file");
    destruct (String.eqb (st_state status) "directory"); reflexivity.
Qed.

Lemma attribute_chowns c p status :
  filter is_chown (map snd (attribute_calls c p status))
  = ((if should_modify status p Owner
      then [HdfsContextCli.chown_cmd c (path p) (owner p) None (recurse p)] else [])
     ++ (if should_modify status p Group
         then [HdfsContextCli.chown_cmd c (path p) None (group p) (recurse p)] else []))%list.
Proof.
  unfold attribute_calls. rewrite !map_app, !filter_app.
  assert (H3 : filter is_chown
            (map snd (if should_modify status p Replication
                      then match replication p with
                           | Some factor =>
                               [("setrep", HdfsContextCli.setrep_cmd c (path p) factor)]
                           | None => []
                           end
                      else [])) = []).
  { destruct (should_modify status p Replication); [|reflexivity].
    destruct (replication p); reflexivity. }
  assert (H4 : filter is_chown
            (map snd (match mode p with
                      | Some m => [("chmod", HdfsContextCli.chmod_cmd c (path p) m (recurse p))]
                      | None => []
                      end)) = []).
  { destruct (mode p); [|reflexivity]. simpl. now rewrite is_chown_chmod_cmd. }
  rewrite H3, H4, !app_nil_r.
  destruct (should_modify status p Owner), (should_modify status p Group); simpl;
    rewrite ?is_chown_chown_cmd; reflexivity.
Qed.

(** C2, as the code has it.  Owner and group are reconciled by two
    separate steps.  A run with a desired state other than [absent] that
    completes has started one [-chown] process carrying the owner alone
    when the owner is to apply, then one carrying [":" + group] alone
    when the group is to apply, and no other: two processes when both are
    to apply.  Each has [-R] exactly when [recurse] is true. *)
Theorem chown_one_call_per_attribute (c : string) (module : AnsibleModule) (w : World)
    (status : Status) (w1 : World) (changed : bool) (w' : World) :
  state (params module) <> absent ->
  HdfsContextCli.stats c (path (params module)) w = (inr status, w1) ->
  run (reconcile module (HdfsContextCli.new c)) w = (ExitJson changed, w') ->
  let p := params module in
  filter is_chown (issued w w')
  = ((if should_modify status p Owner
      then [HdfsContextCli.chown_cmd c (path p) (owner p) None (recurse p)] else [])
     ++ (if should_modify status p Group
         then [HdfsContextCli.chown_cmd c (path p) None (group p) (recurse p)] else []))%list
  /\
  (forall o, owner p = Some o -> o <> "" ->
     HdfsContextCli.chown_cmd c (path p) (owner p) None (recurse p)
     = if Py.truthy (recurse p) then [c; "dfs"; "-chown"; "-R"; o; path p]
       else [c; "dfs"; "-chown"; o; path p]) /\
  (forall g, group p = Some g -> g <> "" ->
     HdfsContextCli.chown_cmd c (path p) None (group p) (recurse p)
     = if Py.truthy (recurse p) then [c; "dfs"; "-chown"; "-R"; ":" ++ g; path p]
       else [c; "dfs"; "-chown"; ":" ++ g; path p]).
Proof.
  intros Hs Hst Hrun p. change (state p <> absent) in Hs. repeat split.
  - destruct (exit_run c module w changed w' Hrun) as (status' & wa & Hst' & Hi & _).
    rewrite Hst in Hst'. inversion Hst'; subst status' wa. fold p in Hi.
    rewrite Hi. unfold plan. rewrite (not_absent _ Hs).
    cbn [filter]. unfold is_chown at 1. simpl subcommand. simpl String.eqb.
    rewrite filter_app, transition_not_chown, attribute_chowns. reflexivity.
  - intros o Ho Hne. rewrite Ho. unfold HdfsContextCli.chown_cmd, HdfsContextCli.chown_target.
    rewrite (truthy_nonempty o Hne). destruct (Py.truthy (recurse p)); reflexivity.
  - intros g Hg Hne. rewrite Hg. unfold HdfsContextCli.chown_cmd, HdfsContextCli.chown_target.
    rewrite (truthy_nonempty g Hne). destruct (Py.truthy (recurse p)); reflexivity.
Qed.

End OwnerGroup.

Lemma chown_one_call_per_attribute_witness :
  let m := Scenario.real Scenario.create_folder in
  let w := Double.world [] in
  hdfs_file.state (hdfs_file.params m) <> hdfs_file.absent /\
  filter is_chown (issued w (snd (hdfs_file.run (hdfs_file.reconcile m Double.cli) w)))
  = [["/bin/hdfs"; "dfs"; "-chown"; "myuser"; "/tmp/myfolder"];
     ["/bin/hdfs"; "dfs"; "-chown"; ":mygroup"; "/tmp/myfolder"]].
Proof.
  intros m w.
  assert (Hs : hdfs_file.state (hdfs_file.params m) <> hdfs_file.absent) by discriminate.
  split; [exact Hs|].
  exact (proj1 (@chown_one_call_per_attribute Double.backend "/bin/hdfs" m w
                  HdfsUtils.HdfsContextCli.result0 _ true _ Hs eq_refl eq_refl)).
Defined.

(** The claim as worded fails on the documentation's own example: the
    run starts two [-chown] processes, not one. *)
Lemma single_combined_chown_fails :
  ~ @single_combined_chown Double.backend "/bin/hdfs"
      (Scenario.real Scenario.create_folder) (Double.world []).
Proof.
  intros H.
  specialize (H HdfsUtils.HdfsContextCli.result0 _ true _ eq_refl eq_refl eq_refl).
  vm_compute in H. discriminate H.
Qed.

(* ===================================================================== *)
(** ** Two runs in a row *)
(* ===================================================================== *)

Section Idempotence.
Context {B : Backend}.
Import HdfsUtils hdfs_file.

Lemma should_modify_status_get s s' p k :
  status_get s' k = status_get s k -> should_modify s' p k = should_modify s p k.
Proof. unfold should_modify. intros ->. reflexivity. Qed.

Lemma should_modify_str_eq s p k :
  state p <> touch ->
  Py.str (status_get s k) = Py.str (params_get p k) ->
  should_modify s p k = false.
Proof.
  intros Hs He. unfold should_modify. rewrite He, String.eqb_refl.
  destruct (is_None (params_get p k)); [reflexivity|].
  destruct (state p); try reflexivity. congruence.
Qed.

Lemma settled_attribute p s1 s2 k :
  state p <> touch -> state p <> absent ->
  reflected p s1 s2 ->
  (st_state s1 <> state_str (state p) ->
   forall k, is_None (params_get p k) = false -> should_modify s1 p k = true) ->
  should_modify s2 p k = false.
Proof.
  intros Ht Ha [_ Hr] Hfresh.
  destruct (is_None (params_get p k)) eqn:Hk.
  - unfold should_modify. now rewrite Hk.
  - destruct (Hr Ha k Hk) as [Happlied Hkept].
    destruct (should_modify s1 p k) eqn:H1.
    + apply should_modify_str_eq; auto.
    + destruct (string_dec (st_state s1) (state_str (state p))) as [He|Hne].
      * rewrite (should_modify_status_get s1 s2 p k (Hkept eq_refl He)). exact H1.
      * rewrite (Hfresh Hne k Hk) in H1. discriminate.
Qed.

(** C3, as the code has it.  Take a desired state other than [touch]
    and no [mode].  Let a first run find [s1] and complete, and let the
    second run find a status [s2] that reflects the first run's
    mutations.  Provided every requested attribute was applied by the
    first run when that run had to change the state of the path, the
    second run starts no process besides its query and reports
    [changed=false]. *)
Theorem second_run_unchanged (c : string) (module : AnsibleModule) (w : World)
    (s1 : Status) (wa : World) (changed1 : bool) (w1 : World) (s2 : Status) (wb : World) :
  let p := params module in
  state p <> touch ->
  mode p = None ->
  HdfsContextCli.stats c (path p) w = (inr s1, wa) ->
  run (reconcile module (HdfsContextCli.new c)) w = (ExitJson changed1, w1) ->
  HdfsContextCli.stats c (path p) w1 = (inr s2, wb) ->
  reflected p s1 s2 ->
  (state p <> absent -> st_state s1 <> state_str (state p) ->
   forall k, is_None (params_get p k) = false -> should_modify s1 p k = true) ->
  run (reconcile module (HdfsContextCli.new c)) w1 = (ExitJson false, wb) /\
  issued w1 wb = [HdfsContextCli.stats_cmd c (path p)].
Proof.
  intros p Ht Hm Hst1 Hrun1 Hst2 Hrefl Hfresh. split.
  - rewrite reconcile_run. fold p. rewrite Hst2.
    destruct Hrefl as [Hstate Hattr]. rewrite Hstate, String.eqb_refl. simpl.
    unfold finish, attributes_phase.
    destruct (String.eqb (state_str (state p)) "absent") eqn:Habs; [reflexivity|].
    assert (Ha : state p <> absent) by (intros E; rewrite E in Habs; discriminate).
    assert (Hk : forall k, should_modify s2 p k = false).
    { intros k. apply (settled_attribute p s1 s2 k Ht Ha (conj Hstate Hattr) (Hfresh Ha)). }
    unfold attribute_calls. rewrite !Hk, Hm. reflexivity.
  - apply issued_app. exact (stats_spawned c (path p) w1 _ wb Hst2).
Qed.

End Idempotence.

Lemma second_run_unchanged_witness :
  let m := Scenario.real Scenario.folder_owned in
  let w := Double.world [] in
  let r1 := hdfs_file.run (hdfs_file.reconcile m Double.cli) w in
  let r2 := hdfs_file.run (hdfs_file.reconcile m Double.cli) (snd r1) in
  fst r1 = ExitJson true /\
  reflected Scenario.folder_owned HdfsUtils.HdfsContextCli.result0
    Scenario.folder_status /\
  fst r2 = ExitJson false.
Proof.
  intros m w r1 r2.
  assert (Ht : hdfs_file.state Scenario.folder_owned <> hdfs_file.touch)
    by discriminate.
  assert (Hr : reflected Scenario.folder_owned HdfsUtils.HdfsContextCli.result0
                 Scenario.folder_status).
  { split; [reflexivity|]. intros _ k Hk. destruct k; simpl in *; try discriminate;
      split; intros; try reflexivity; discriminate. }
  assert (Hf : hdfs_file.state Scenario.folder_owned <> hdfs_file.absent ->
               HdfsUtils.st_state HdfsUtils.HdfsContextCli.result0
               <> hdfs_file.state_str (hdfs_file.state Scenario.folder_owned) ->
               forall k, hdfs_file.is_None
                           (hdfs_file.params_get Scenario.folder_owned k) = false ->
                 hdfs_file.should_modify HdfsUtils.HdfsContextCli.result0
                   Scenario.folder_owned k = true).
  { intros _ _ k Hk. destruct k; simpl in *; try discriminate; reflexivity. }
  split; [reflexivity|]. split; [exact Hr|].
  exact (f_equal fst
           (proj1 (@second_run_unchanged Double.backend "/bin/hdfs" m w
                     HdfsUtils.HdfsContextCli.result0 _ true (snd r1)
                     Scenario.folder_status _
                     Ht eq_refl eq_refl eq_refl eq_refl Hr Hf))).
Defined.

(** The claim as worded fails when [mode] is set: the second of two runs
    on an existing file that nothing has touched reports [changed=true]
    again. *)
Lemma idempotent_fails_with_mode :
  hdfs_file.state Scenario.file_with_mode <> hdfs_file.touch /\
  ~ @idempotent Double.backend "/bin/hdfs"
      (Scenario.real Scenario.file_with_mode)
      (Double.world [("/tmp/myfile", Double.new_file)]).
Proof.
  split; [discriminate|].
  intros H.
  assert (Hr : reflected Scenario.file_with_mode Scenario.file_status
                 Scenario.file_status).
  { split; [reflexivity|]. intros _ k Hk. destruct k; simpl in Hk; discriminate. }
  specialize (H Scenario.file_status _ true _ Scenario.file_status _
                eq_refl eq_refl eq_refl Hr).
  apply (f_equal fst) in H. vm_compute in H. discriminate H.
Qed.

(** What the proviso on state transitions leaves out.  [should_modify]
    compares the status read before the state step: on a path that does
    not exist yet the owner it holds is [None], and [str(None)] is
    ["None"].  A first run asked for the owner ["None"] creates the
    directory and skips the owner; the second run applies it. *)
Example stale_status_skips_owner :
  let m := Scenario.real Scenario.folder_owned_by_None in
  let r1 := hdfs_file.run (hdfs_file.reconcile m Double.cli) (Double.world []) in
  let r2 := hdfs_file.run (hdfs_file.reconcile m Double.cli) (Double.world (fs (snd r1))) in
  r1 = (ExitJson true,
        Double.logged [("/tmp/myfolder", Double.new_dir)]
          [["/bin/hdfs"; "dfs"; "-stat"; "%F[SEP]%u[SEP]%g[SEP]%r"; "/tmp/myfolder"];
           ["/bin/hdfs"; "dfs"; "-mkdir"; "-p"; "/tmp/myfolder"]]) /\
  fst r2 = ExitJson true /\
  spawned (snd r2)
  = [["/bin/hdfs"; "dfs"; "-stat"; "%F[SEP]%u[SEP]%g[SEP]%r"; "/tmp/myfolder"];
     ["/bin/hdfs"; "dfs"; "-chown"; "None"; "/tmp/myfolder"]].
Proof. repeat split. Qed.

(* ===================================================================== *)
(** ** Check mode *)
(* ===================================================================== *)

Section CheckMode.
Context {B : Backend}.
Import HdfsUtils hdfs_file.

(** [__init__] ends with [return (inst)], so building an [HdfsCheckMode]
    never gives an object. *)
Lemma HdfsCheckMode_raises (inst : instance) :
  HdfsCheckMode.new inst
  = inl (if (negb (class_eqb (isinstance inst) HdfsContextCli_class)
             && negb (class_eqb (isinstance inst) HdfsContextLib_class))%bool
         then HdfsUtilsError "HdfsCheckMode expect a valid HdfsContext instance"
         else TypeError "__init__() should return None").
Proof.
  unfold HdfsCheckMode.new, HdfsCheckMode.__init__.
  destruct (negb (class_eqb (isinstance inst) HdfsContextCli_class)
            && negb (class_eqb (isinstance inst) HdfsContextLib_class))%bool; reflexivity.
Qed.

(** C1, on the code.  In check mode [main] never gets as far as the
    status query: whatever names its file binds and whatever the
    parameters, the run ends without a [changed] flag and without having
    started a process, on [fail_json] ([method=library]), on a
    [NameError] ([HdfsContextCli] or [HdfsCheckMode] not bound), or on the
    [TypeError] that [HdfsCheckMode(context)] raises. *)
Theorem check_mode_reports_nothing (G : list string) (p : Params) (w : World) :
  exists s,
    run (main_in G {| params := p; check_mode := true |}) w = (s, w) /\
    reports_changed s = false /\
    (method p = command ->
     existsb (String.eqb "HdfsContextCli") G = true ->
     existsb (String.eqb "HdfsCheckMode") G = true ->
     s = Raise (TypeError "__init__() should return None")).
Proof.
  unfold run, main_in, lookup. simpl check_mode. simpl params.
  destruct (method p).
  - destruct (existsb (String.eqb "HdfsContextCli") G).
    + destruct (existsb (String.eqb "HdfsCheckMode") G).
      * eexists. split; [reflexivity|]. split; [reflexivity|]. reflexivity.
      * eexists. split; [reflexivity|]. split; [reflexivity|]. discriminate.
    + eexists. split; [reflexivity|]. split; [reflexivity|]. discriminate.
  - eexists. split; [reflexivity|]. split; [reflexivity|]. discriminate.
Qed.

(** The object that [HdfsCheckMode.__init__] patches and hands to its
    [return] statement does what check mode asks for: had [main] gone on
    with it, the run would have started the status query and nothing
    else, and reported the flag of a real run. *)
Lemma neutralized_run c module (w : World) status w1 :
  HdfsContextCli.stats c (path (params module)) w = (inr status, w1) ->
  run (reconcile module (HdfsCheckMode.neutralize (HdfsContextCli.new c))) w
  = (dry_outcome c (params module) status, w1).
Proof.
  intros Hst. unfold run, reconcile, dry_outcome, changed_flag, attribute_calls.
  unfold bind at 1. simpl getattr. unfold bind at 1. unfold ret at 1. rewrite Hst.
  set (p := params module).
  unfold bind at 1.
  assert (Hnone : replication p = None -> should_modify status p Replication = false).
  { unfold should_modify. simpl. intros ->. reflexivity. }
  assert (Htail : forall changed (w2 : World),
    match
      (bind (if String.eqb (state_str (state p)) "absent" then exit_json changed else ret tt)
        (fun _ =>
          bind (if should_modify status p Owner
                then bind (getattr "chown" (chown (HdfsCheckMode.neutralize (HdfsContextCli.new c))))
                       (fun f => bind (f (path p) (owner p) None (recurse p)) (fun _ => ret true))
                else ret changed)
           (fun changed =>
             bind (if should_modify status p Group
                   then bind (getattr "chown" (chown (HdfsCheckMode.neutralize (HdfsContextCli.new c))))
                          (fun f => bind (f (path p) None (group p) (recurse p)) (fun _ => ret true))
                   else ret changed)
              (fun changed =>
                bind (if should_modify status p Replication
                      then bind (getattr "setrep" (setrep (HdfsCheckMode.neutralize (HdfsContextCli.new c))))
                             (fun f => bind (match replication p with
                                             | Some factor => f (path p) factor
                                             | None => raise (TypeError "expected a string")
                                             end) (fun _ => ret true))
                      else ret changed)
                  (fun changed =>
                    bind (match mode p with
                          | Some m =>
                              bind (getattr "chmod" (chmod (HdfsCheckMode.neutralize (HdfsContextCli.new c))))
                                (fun f => bind (f (path p) m (recurse p)) (fun _ => ret true))
                          | None => ret changed
                          end)
                      (fun changed => @exit_json _ Empty_set changed)))))) w2
    with
    | (inl s, w') => (s, w')
    | (inr e, _) => match e return stop * World with end
    end
    = (ExitJson (changed
                 || (negb (String.eqb (state_str (state p)) "absent")
                     && negb (Nat.eqb (length (attribute_calls c p status)) 0))), w2)).
  { intros changed w2. unfold attribute_calls. unfold bind at 1.
    destruct (String.eqb (state_str (state p)) "absent");
      [destruct changed; reflexivity|].
    unfold ret at 1.
    destruct (replication p) as [factor|]; [|rewrite (Hnone eq_refl)];
      destruct (should_modify status p Owner), (should_modify status p Group),
        (mode p); try destruct (should_modify status p Replication);
      destruct changed; reflexivity. }
  destruct (String.eqb_spec (st_state status) (state_str (state p))) as [He|Hne]; cbn [negb].
  - unfold ret at 1. refine (eq_trans (Htail false w1) _). reflexivity.
  - unfold bind at 1.
    assert (Hres : resolv_states module p (HdfsCheckMode.neutralize (HdfsContextCli.new c))
                     status w1
                   = match transition_table c (path p) (st_state status) (state p) with
                     | Unsupported msg => (inl (FailJson msg), w1)
                     | Call _ _ => (inr true, w1)
                     end).
    { unfold resolv_states, transition_table, names_both.
      destruct (state p); simpl in *;
        destruct (String.eqb_spec (st_state status) "absent") as [Ha|Ha];
        destruct (String.eqb_spec (st_state status) "file") as [Hf|Hf];
        destruct (String.eqb_spec (st_state status) "directory") as [Hd|Hd];
        try congruence; reflexivity. }
    unfold bind at 1. rewrite Hres.
    destruct (transition_table c (path p) (st_state status) (state p)); [reflexivity|].
    unfold ret at 1. refine (eq_trans (Htail true w1) _). reflexivity.
Qed.

Lemma neutralized_matches_real c module (w : World) changed w' :
  run (reconcile module (HdfsContextCli.new c)) w = (ExitJson changed, w') ->
  exists w1,
    run (reconcile module (HdfsCheckMode.neutralize (HdfsContextCli.new c))) w
    = (ExitJson changed, w1) /\
    issued w w1 = [HdfsContextCli.stats_cmd c (path (params module))].
Proof.
  intros Hrun.
  destruct (exit_run c module w changed w' Hrun) as (status & w1 & Hst & _ & Hch).
  exists w1. split.
  - rewrite (neutralized_run c module w status w1 Hst). f_equal.
    unfold dry_outcome. rewrite <- Hch.
    destruct (String.eqb_spec (st_state status) (state_str (state (params module))))
      as [He|Hne]; [reflexivity|].
    destruct (transition_table c (path (params module)) (st_state status)
                (state (params module))) as [msg|what argv] eqn:Ht; [|reflexivity].
    exfalso. rewrite reconcile_run, Hst in Hrun.
    apply String.eqb_neq in Hne as Hne'. rewrite Hne' in Hrun. simpl in Hrun.
    rewrite (resolv_states_run c module _ status w1 Hne), Ht in Hrun. discriminate.
  - apply issued_app. exact (stats_spawned c _ w _ w1 Hst).
Qed.

End CheckMode.

Example check_mode_on_documented_example :
  hdfs_file.run (hdfs_file.main (Scenario.check Scenario.create_folder)) (Double.world [])
  = (Raise (NameError "HdfsContextCli"), Double.world []) /\
  hdfs_file.run (hdfs_file.main_in ("HdfsContextCli" :: hdfs_file.globals)
                   (Scenario.check Scenario.create_folder)) (Double.world [])
  = (Raise (TypeError "__init__() should return None"), Double.world []) /\
  hdfs_file.run (hdfs_file.main_in ("HdfsContextCli" :: hdfs_file.globals)
                   (Scenario.real Scenario.create_folder)) (Double.world [])
  = (ExitJson true,
     Double.logged
       [("/tmp/myfolder",
         {| Double.kind := "directory"; Double.e_owner := "myuser";
            Double.e_group := "mygroup"; Double.e_replication := 0 |})]
       [["/bin/hdfs"; "dfs"; "-stat"; "%F[SEP]%u[SEP]%g[SEP]%r"; "/tmp/myfolder"];
        ["/bin/hdfs"; "dfs"; "-mkdir"; "-p"; "/tmp/myfolder"];
        ["/bin/hdfs"; "dfs"; "-chown"; "myuser"; "/tmp/myfolder"];
        ["/bin/hdfs"; "dfs"; "-chown"; ":mygroup"; "/tmp/myfolder"];
        ["/bin/hdfs"; "dfs"; "-chmod"; "0755"; "/tmp/myfolder"]]).
Proof. repeat split. Qed.

(* ===================================================================== *)
(** ** Further properties: [should_modify] *)
(* ===================================================================== *)

Section ShouldModify.
Import HdfsUtils hdfs_file.

(** X1.  [should_modify] compares renderings under [str], not values.
    With a desired state other than [touch], a requested replication
    that is spelled exactly as [str] prints the current integer is left
    alone; one that denotes the same integer under [int] but is spelled
    otherwise (a leading zero, a sign, a space) is applied again on
    every run. *)
Theorem replication_compared_as_text (status : Status) (p : Params) (n : Z) (f : string) :
  state p <> touch ->
  st_replication status = Some n ->
  replication p = Some f ->
  (f = Py.str_int n -> should_modify status p Replication = false) /\
  (Py.int f = Some n -> f <> Py.str_int n -> should_modify status p Replication = true).
Proof.
  intros Ht Hn Hf. unfold should_modify. simpl. rewrite Hn, Hf. simpl.
  assert (Hs : String.eqb (state_str (state p)) "touch" = false)
    by (destruct (state p); try reflexivity; congruence).
  rewrite Hs. split.
  - intros ->. now rewrite String.eqb_refl.
  - intros _ Hne. destruct (String.eqb_spec (Py.str_int n) f) as [E|E]; [|reflexivity].
    congruence.
Qed.

(** X2.  On a path that does not exist the status holds [None] for
    owner, group and replication, and [str(None)] is ["None"]: with a
    desired state other than [touch], an option requested as the string
    ["None"] is not applied, and any other requested string is. *)
Theorem absent_status_reads_as_None (p : Params) (k : key) (v : string) :
  state p <> touch ->
  params_get p k = Py.VStr v ->
  should_modify HdfsContextCli.result0 p k = negb (String.eqb v "None").
Proof.
  intros Ht Hv. unfold should_modify. rewrite Hv. simpl.
  assert (Hs : String.eqb (state_str (state p)) "touch" = false)
    by (destruct (state p); try reflexivity; congruence).
  rewrite Hs.
  assert (Hnone : Py.str (status_get HdfsContextCli.result0 k) = "None")
    by (destruct k; reflexivity).
  rewrite Hnone, (String.eqb_sym "None" v).
  destruct (String.eqb v "None"); reflexivity.
Qed.

End ShouldModify.

Lemma replication_compared_as_text_witness :
  let status := {| HdfsUtils.st_state := "file"; HdfsUtils.st_owner := Some "a";
                   HdfsUtils.st_group := Some "a"; HdfsUtils.st_replication := Some 3 |} in
  let p f := {| hdfs_file.group := None; hdfs_file.method := hdfs_file.command;
                hdfs_file.mode := None; hdfs_file.owner := None;
                hdfs_file.path := "/tmp/myfile"; hdfs_file.recurse := None;
                hdfs_file.replication := Some f; hdfs_file.state := hdfs_file.file |} in
  hdfs_file.should_modify status (p "3") hdfs_file.Replication = false /\
  Py.int "03" = Some 3 /\ "03" <> Py.str_int 3 /\
  hdfs_file.should_modify status (p "03") hdfs_file.Replication = true.
Proof.
  intros status p.
  assert (Ht : forall f, hdfs_file.state (p f) <> hdfs_file.touch) by (intros f; discriminate).
  assert (Hne : "03" <> Py.str_int 3) by discriminate.
  split; [|split; [reflexivity|split; [exact Hne|]]].
  - exact (proj1 (replication_compared_as_text status (p "3") 3 "3" (Ht "3") eq_refl eq_refl)
             eq_refl).
  - exact (proj2 (replication_compared_as_text status (p "03") 3 "03" (Ht "03") eq_refl eq_refl)
             eq_refl Hne).
Defined.

Lemma absent_status_reads_as_None_witness :
  hdfs_file.state Scenario.folder_owned_by_None <> hdfs_file.touch /\
  hdfs_file.should_modify HdfsUtils.HdfsContextCli.result0 Scenario.folder_owned_by_None
    hdfs_file.Owner = false.
Proof.
  assert (Ht : hdfs_file.state Scenario.folder_owned_by_None <> hdfs_file.touch)
    by discriminate.
  split; [exact Ht|].
  exact (absent_status_reads_as_None Scenario.folder_owned_by_None hdfs_file.Owner "None"
           Ht eq_refl).
Defined.

(* ===================================================================== *)
(** ** Further properties: the commands of [HdfsContextCli] *)
(* ===================================================================== *)

Section Commands.
Context {B : Backend}.
Import HdfsUtils.

(** X3.  Every argument vector an [HdfsContextCli] builds starts with
    the executable and ["dfs"], has the subcommand at index 2 whether or
    not a flag was inserted, and ends with the path. *)
Theorem argv_layout (c path mode factor : string) (owner group recurse : option string)
    (flag : bool) :
  let shape (sub : string) (argv : list string) :=
    firstn 3 argv = [c; "dfs"; sub] /\ last argv "" = path in
  shape "-chmod" (HdfsContextCli.chmod_cmd c path mode recurse) /\
  shape "-chown" (HdfsContextCli.chown_cmd c path owner group recurse) /\
  shape "-mkdir" (HdfsContextCli.mkdir_cmd c path flag) /\
  shape "-rm" (HdfsContextCli.remove_cmd c path flag) /\
  shape "-setrep" (HdfsContextCli.setrep_cmd c path factor) /\
  shape "-stat" (HdfsContextCli.stats_cmd c path) /\
  shape "-touchz" (HdfsContextCli.touch_cmd c path).
Proof.
  unfold HdfsContextCli.chmod_cmd, HdfsContextCli.chown_cmd, HdfsContextCli.mkdir_cmd,
    HdfsContextCli.remove_cmd.
  destruct (Py.truthy recurse), flag; repeat split.
Qed.

(** X4.  [recurse] is tested for truth as it comes from the parameters,
    where it is a string: every non-empty value, ["no"] and ["False"]
    included, puts [-R] in the [-chmod] and [-chown] commands; [None] and
    the empty string do not. *)
Theorem recurse_is_truthiness (c path mode : string) (owner group : option string) :
  (forall r, r <> "" ->
     HdfsContextCli.chmod_cmd c path mode (Some r) = [c; "dfs"; "-chmod"; "-R"; mode; path] /\
     HdfsContextCli.chown_cmd c path owner group (Some r)
     = [c; "dfs"; "-chown"; "-R"; HdfsContextCli.chown_target owner group; path]) /\
  (forall r, r = None \/ r = Some "" ->
     HdfsContextCli.chmod_cmd c path mode r = [c; "dfs"; "-chmod"; mode; path] /\
     HdfsContextCli.chown_cmd c path owner group r
     = [c; "dfs"; "-chown"; HdfsContextCli.chown_target owner group; path]).
Proof.
  unfold HdfsContextCli.chmod_cmd, HdfsContextCli.chown_cmd. split.
  - intros r Hr. simpl. rewrite (truthy_nonempty r Hr). split; reflexivity.
  - intros r [-> | ->]; split; reflexivity.
Qed.

(** X5.  Each "action" method starts exactly one process and looks at
    nothing but its exit status: status 0 returns normally, any other
    status raises [HdfsUtilsError] with the name of the subcommand ([rm]
    for [remove], [touchz] for [touch]) and the standard error of the
    process.  The file system is left as the process leaves it in both
    cases. *)
Theorem action_raises_iff_nonzero (c path mode factor : string)
    (owner group recurse : option string) (flag : bool) (w : World) :
  let contract (what : string) (argv : list string) (m : M unit) :=
    let '((rc, out, err), fs') := hdfs argv (fs w) in
    m w = (if rc =? 0 then inr tt
           else inl (Raise (HdfsUtilsError ("subprocess " ++ what ++ " stderr: " ++ err))),
           after w argv fs') in
  contract "chmod" (HdfsContextCli.chmod_cmd c path mode recurse)
    (HdfsContextCli.chmod c path mode recurse) /\
  contract "chown" (HdfsContextCli.chown_cmd c path owner group recurse)
    (HdfsContextCli.chown c path owner group recurse) /\
  contract "mkdir" (HdfsContextCli.mkdir_cmd c path flag) (HdfsContextCli.mkdir c path flag) /\
  contract "rm" (HdfsContextCli.remove_cmd c path flag) (HdfsContextCli.remove c path flag) /\
  contract "setrep" (HdfsContextCli.setrep_cmd c path factor)
    (HdfsContextCli.setrep c path factor) /\
  contract "touchz" (HdfsContextCli.touch_cmd c path) (HdfsContextCli.touch c path).
Proof.
  unfold HdfsContextCli.chmod, HdfsContextCli.chown, HdfsContextCli.mkdir,
    HdfsContextCli.remove, HdfsContextCli.setrep, HdfsContextCli.touch,
    bind, Popen, HdfsContextCli.check.
  repeat split;
    match goal with
    | |- context [hdfs ?a (fs w)] =>
        destruct (hdfs a (fs w)) as [[[rc out] err] fs']; destruct (rc =? 0); reflexivity
    end.
Qed.

End Commands.

Lemma recurse_is_truthiness_witness :
  "no" <> "" /\
  @HdfsUtils.HdfsContextCli.chmod_cmd "/bin/hdfs" "/tmp/myfolder" "0755" (Some "no")
  = ["/bin/hdfs"; "dfs"; "-chmod"; "-R"; "0755"; "/tmp/myfolder"] /\
  @HdfsUtils.HdfsContextCli.chmod_cmd "/bin/hdfs" "/tmp/myfolder" "0755" None
  = ["/bin/hdfs"; "dfs"; "-chmod"; "0755"; "/tmp/myfolder"].
Proof.
  assert (Hno : "no" <> "") by discriminate.
  split; [exact Hno|]. split.
  - exact (proj1 (proj1 (recurse_is_truthiness "/bin/hdfs" "/tmp/myfolder" "0755"
                           (Some "myuser") None) "no" Hno)).
  - exact (proj1 (proj2 (recurse_is_truthiness "/bin/hdfs" "/tmp/myfolder" "0755"
                           (Some "myuser") None) None (or_introl eq_refl))).
Defined.

(* ===================================================================== *)
(** ** Further properties: [stats] *)
(* ===================================================================== *)

Section StatsEdges.
Context {B : Backend}.
Import HdfsUtils.

Lemma stats_on_success c path (w : World) out err fs' :
  hdfs (HdfsContextCli.stats_cmd c path) (fs w) = ((0, out, err), fs') ->
  HdfsContextCli.stats c path w
  = (match HdfsContextCli.parse out with
     | inr result => inr result
     | inl e => inl (Raise e)
     end, after w (HdfsContextCli.stats_cmd c path) fs').
Proof.
  intros H. unfold HdfsContextCli.stats, bind, Popen. rewrite H. simpl.
  destruct (HdfsContextCli.parse out); reflexivity.
Qed.

(** X6.  When the [-stat] process exits with status 0, [stats] trusts
    its output.  An output with fewer than four fields between the
    ["[SEP]"] separators (an empty output among them) raises
    [IndexError]; with four fields or more, the fields after the fourth
    are ignored, and a fourth field that [int] does not accept raises
    [ValueError].  Neither is an [HdfsUtilsError]. *)
Theorem stats_malformed_answer (c path : string) (w : World) (out err : string) (fs' : FS) :
  hdfs (HdfsContextCli.stats_cmd c path) (fs w) = ((0, out, err), fs') ->
  let fields := Py.split "[SEP]" (Py.strip out) in
  let w' := after w (HdfsContextCli.stats_cmd c path) fs' in
  ((length fields < 4)%nat -> HdfsContextCli.stats c path w = (inl (Raise IndexError), w')) /\
  ((4 <= length fields)%nat -> Py.int (nth 3 fields "") = None ->
   HdfsContextCli.stats c path w = (inl (Raise ValueError), w')) /\
  ((4 <= length fields)%nat -> forall n, Py.int (nth 3 fields "") = Some n ->
   HdfsContextCli.stats c path w
   = (inr {| st_state := if String.eqb (nth 0 fields "") "regular file" then "file"
                         else nth 0 fields "";
             st_owner := Some (nth 1 fields ""); st_group := Some (nth 2 fields "");
             st_replication := Some n |}, w')).
Proof.
  intros H fields w'. rewrite (stats_on_success c path w out err fs' H).
  unfold HdfsContextCli.parse. fold fields.
  destruct fields as [|f0 [|f1 [|f2 [|f3 rest]]]]; simpl; repeat split;
    try (intros; lia); try reflexivity.
  - intros _ Hn. rewrite Hn. reflexivity.
  - intros _ n Hn. rewrite Hn. reflexivity.
Qed.

(** X7.  Whatever [stats] returns without raising is of one of two
    kinds: the state ["absent"] with owner, group and replication all
    [None], or a state other than ["regular file"] with owner, group and
    replication all set.  It has started the one [-stat] process. *)
Theorem stats_all_or_nothing (c path : string) (w : World) (s : Status) (w' : World) :
  HdfsContextCli.stats c path w = (inr s, w') ->
  ((st_state s = "absent" /\ st_owner s = None /\ st_group s = None /\
    st_replication s = None) \/
   (st_state s <> "regular file" /\
    exists o g n, st_owner s = Some o /\ st_group s = Some g /\ st_replication s = Some n)) /\
  issued w w' = [HdfsContextCli.stats_cmd c path].
Proof.
  intros H. split.
  - unfold HdfsContextCli.stats, bind, Popen in H.
    destruct (hdfs _ (fs w)) as [[[rc out] err] fs'].
    destruct (negb (rc =? 0)).
    + inversion H; subst. left. repeat split.
    + unfold HdfsContextCli.parse in H.
      destruct (Py.split "[SEP]" (Py.strip out)) as [|f0 [|f1 [|f2 [|f3 rest]]]];
        try discriminate.
      destruct (Py.int f3) as [n|]; [|discriminate].
      inversion H; subst. right. simpl. split.
      * destruct (String.eqb_spec f0 "regular file") as [E|E]; [discriminate|exact E].
      * exists f1, f2, n. repeat split.
  - apply issued_app. exact (stats_spawned c path w _ w' H).
Qed.

End StatsEdges.

Lemma stats_malformed_answer_witness :
  let silent := (0, "", "") in
  let garbled := (0, "directory[SEP]hdfs[SEP]supergroup[SEP]-", "") in
  fst (@HdfsUtils.HdfsContextCli.stats (Canned.answering silent) "/bin/hdfs" "/tmp/x"
         (Canned.blank silent))
  = inl (Raise IndexError) /\
  fst (@HdfsUtils.HdfsContextCli.stats (Canned.answering garbled) "/bin/hdfs" "/tmp/x"
         (Canned.blank garbled))
  = inl (Raise ValueError).
Proof.
  intros silent garbled. split.
  - refine (f_equal fst (proj1 (@stats_malformed_answer (Canned.answering silent)
                                  "/bin/hdfs" "/tmp/x" (Canned.blank silent) "" "" tt
                                  eq_refl) _)).
    simpl. lia.
  - refine (f_equal fst (proj1 (proj2 (@stats_malformed_answer (Canned.answering garbled)
                                         "/bin/hdfs" "/tmp/x" (Canned.blank garbled) _ "" tt
                                         eq_refl)) _ _)).
    + simpl. lia.
    + reflexivity.
Defined.

Lemma stats_all_or_nothing_witness :
  let t := [("/tmp/myfile", Double.new_file)] in
  exists s w',
    HdfsUtils.HdfsContextCli.stats "/bin/hdfs" "/tmp/myfile" (Double.world t) = (inr s, w') /\
    HdfsUtils.st_state s <> "regular file" /\
    issued (Double.world t) w' = [HdfsUtils.HdfsContextCli.stats_cmd "/bin/hdfs" "/tmp/myfile"].
Proof.
  intros t. eexists. eexists.
  assert (H : HdfsUtils.HdfsContextCli.stats "/bin/hdfs" "/tmp/myfile" (Double.world t)
              = (inr Scenario.file_status,
                 after (Double.world t)
                   (HdfsUtils.HdfsContextCli.stats_cmd "/bin/hdfs" "/tmp/myfile") t))
    by reflexivity.
  split; [exact H|].
  destruct (@stats_all_or_nothing Double.backend "/bin/hdfs" "/tmp/myfile" (Double.world t)
              _ _ H) as [Hk Hi].
  split; [discriminate|exact Hi].
Defined.

(* ===================================================================== *)
(** ** Further properties: [HdfsCheckMode] and the patched context *)
(* ===================================================================== *)

Section Patched.
Context {B : Backend}.
Import HdfsUtils hdfs_file.

(** X8.  [HdfsCheckMode.__init__] refuses an object that is neither an
    [HdfsContextCli] nor an [HdfsContextLib] with an [HdfsUtilsError],
    leaving it as it is.  Any other object it patches, keeping its class,
    its [cmd] and its [stats] and giving it all six "action" attributes,
    and then returns it; so [HdfsCheckMode(inst)] raises for every
    [inst], [HdfsUtilsError] in the first case and [TypeError] in the
    second. *)
Theorem HdfsCheckMode_guard (inst : instance) :
  let valid := (class_eqb (isinstance inst) HdfsContextCli_class
                || class_eqb (isinstance inst) HdfsContextLib_class)%bool in
  let inst' := HdfsCheckMode.neutralize inst in
  HdfsCheckMode.__init__ inst
  = (if valid then inr (inst', Some inst')
     else inl (HdfsUtilsError "HdfsCheckMode expect a valid HdfsContext instance")) /\
  (isinstance inst' = isinstance inst /\ cmd inst' = cmd inst /\ stats inst' = stats inst) /\
  (chmod inst' <> None /\ chown inst' <> None /\ mkdir inst' <> None /\
   remove inst' <> None /\ setrep inst' <> None /\ HdfsUtils.touch inst' <> None) /\
  HdfsCheckMode.new inst
  = inl (if valid then TypeError "__init__() should return None"
         else HdfsUtilsError "HdfsCheckMode expect a valid HdfsContext instance").
Proof.
  unfold HdfsCheckMode.new, HdfsCheckMode.__init__.
  destruct (class_eqb (isinstance inst) HdfsContextCli_class),
    (class_eqb (isinstance inst) HdfsContextLib_class); simpl;
    repeat split; discriminate.
Qed.

(** X9.  Run with the object that [HdfsCheckMode.__init__] patches,
    [main]'s reconciliation starts the status query and nothing else, and
    depends on the answer alone: it reports a flag when the state needs
    no transition or a supported one ([changed=true] then), and fails,
    with the message of the real run, on an unsupported one.  A
    transition or attribute process that would fail cannot stop it. *)
Theorem patched_context_outcome (c : string) (module : AnsibleModule) (w : World)
    (status : Status) (w1 : World) :
  HdfsContextCli.stats c (path (params module)) w = (inr status, w1) ->
  let p := params module in
  let dry := run (reconcile module (HdfsCheckMode.neutralize (HdfsContextCli.new c))) w in
  issued w (snd dry) = [HdfsContextCli.stats_cmd c (path p)] /\
  (st_state status = state_str (state p) -> exists changed, dry = (ExitJson changed, w1)) /\
  (st_state status <> state_str (state p) ->
   match transition_table c (path p) (st_state status) (state p) with
   | Unsupported msg => dry = (FailJson msg, w1)
   | Call _ _ => dry = (ExitJson true, w1)
   end).
Proof.
  intros Hst p dry. subst dry. rewrite (neutralized_run c module w status w1 Hst).
  fold p. unfold dry_outcome. split; [|split].
  - simpl. apply issued_app. exact (stats_spawned c _ w _ w1 Hst).
  - intros He. rewrite He, String.eqb_refl. eexists. reflexivity.
  - intros Hne. apply String.eqb_neq in Hne as Hb. rewrite Hb.
    destruct (transition_table c (path p) (st_state status) (state p)); [reflexivity|].
    unfold changed_flag. rewrite Hb. reflexivity.
Qed.

(** X10.  Whenever a real run completes, the run with the patched object
    from the same world reports the same [changed] flag, having started
    the status query only. *)
Theorem patched_context_matches_real (c : string) (module : AnsibleModule) (w : World)
    (changed : bool) (w' : World) :
  run (reconcile module (HdfsContextCli.new c)) w = (ExitJson changed, w') ->
  exists w1,
    run (reconcile module (HdfsCheckMode.neutralize (HdfsContextCli.new c))) w
    = (ExitJson changed, w1) /\
    issued w w1 = [HdfsContextCli.stats_cmd c (path (params module))].
Proof. exact (neutralized_matches_real c module w changed w'). Qed.

End Patched.

Lemma patched_context_outcome_witness :
  let m := Scenario.real Scenario.create_folder in
  let w := Double.world [] in
  let dry := hdfs_file.run
               (hdfs_file.reconcile m (HdfsUtils.HdfsCheckMode.neutralize Double.cli)) w in
  HdfsUtils.HdfsContextCli.stats "/bin/hdfs" "/tmp/myfolder" w
  = (inr HdfsUtils.HdfsContextCli.result0,
     after w (HdfsUtils.HdfsContextCli.stats_cmd "/bin/hdfs" "/tmp/myfolder") []) /\
  issued w (snd dry) = [HdfsUtils.HdfsContextCli.stats_cmd "/bin/hdfs" "/tmp/myfolder"] /\
  fs (snd dry) = [].
Proof.
  intros m w dry.
  assert (H : HdfsUtils.HdfsContextCli.stats "/bin/hdfs" "/tmp/myfolder" w
              = (inr HdfsUtils.HdfsContextCli.result0,
                 after w (HdfsUtils.HdfsContextCli.stats_cmd "/bin/hdfs" "/tmp/myfolder") []))
    by reflexivity.
  split; [exact H|]. split; [|reflexivity].
  exact (proj1 (@patched_context_outcome Double.backend "/bin/hdfs" m w _ _ H)).
Defined.

Lemma patched_context_matches_real_witness :
  let m := Scenario.real Scenario.create_folder in
  let w := Double.world [] in
  fst (hdfs_file.run (hdfs_file.reconcile m Double.cli) w) = ExitJson true /\
  exists w1,
    hdfs_file.run (hdfs_file.reconcile m (HdfsUtils.HdfsCheckMode.neutralize Double.cli)) w
    = (ExitJson true, w1) /\
    issued w w1 = [HdfsUtils.HdfsContextCli.stats_cmd "/bin/hdfs" "/tmp/myfolder"].
Proof.
  intros m w. split; [reflexivity|].
  exact (@patched_context_matches_real Double.backend "/bin/hdfs" m w true _ eq_refl).
Defined.

(* ===================================================================== *)
(** ** Further properties: errors of the state step, and [main] *)
(* ===================================================================== *)

Section Errors.
Context {B : Backend}.
Import HdfsUtils hdfs_file.

(** X11.  Whatever the context object does, no [HdfsUtilsError] leaves
    [resolv_states]: the one a context method raises is turned into
    [fail_json] with its text.  Other exceptions pass through. *)
Theorem resolv_states_catches_HdfsUtilsError (module : AnsibleModule) (p : Params)
    (context : instance) (status : Status) (w : World) :
  match fst (resolv_states module p context status w) with
  | inl (Raise (HdfsUtilsError _)) => False
  | _ => True
  end /\
  (forall f msg w',
     st_state status = "absent" -> state p = directory ->
     mkdir context = Some f ->
     f (path p) true w = (inl (Raise (HdfsUtilsError msg)), w') ->
     resolv_states module p context status w = (inl (FailJson msg), w')).
Proof.
  split.
  - unfold resolv_states. unfold bind at 1. unfold try_HdfsUtilsError.
    match goal with
    | |- context [match ?b w with _ => _ end] => destruct (b w) as [[[ch|m|e]|[]] w']
    end; simpl; auto.
    destruct e; simpl; auto.
  - intros f msg w' Ha Hs Hf Hcall.
    unfold resolv_states. rewrite Ha, Hs, Hf. simpl.
    unfold bind, try_HdfsUtilsError, ret. simpl. rewrite Hcall. reflexivity.
Qed.

(** X12.  With [method=library], [main] fails with ["Not yet
    implemented"] before it looks at [check_mode], builds a context or
    starts a process, whatever names its file binds. *)
Theorem library_method_fails_fast (G : list string) (module : AnsibleModule) (w : World) :
  method (params module) = library ->
  run (main_in G module) w = (FailJson "Not yet implemented", w).
Proof. intros H. unfold run, main_in, bind. rewrite H. reflexivity. Qed.

(** X13.  As the file stands, [main] never reaches the status query:
    its import statement binds [HdfsUtilsError] and [HdfsCheckMode] only,
    so with [method=command] the call [HdfsContextCli()] raises
    [NameError]; with [method=library] it is [fail_json].  Either way no
    process is started and no [changed] flag is reported, in check mode
    or not. *)
Theorem main_never_reconciles (module : AnsibleModule) (w : World) :
  run (main module) w
  = (match method (params module) with
     | command => Raise (NameError "HdfsContextCli")
     | library => FailJson "Not yet implemented"
     end, w).
Proof. unfold run, main, main_in, bind. destruct (method (params module)); reflexivity. Qed.

End Errors.

Lemma resolv_states_catches_HdfsUtilsError_witness :
  let refusing : Backend := Canned.answering (1, "", "mkdir: Permission denied") in
  let p := Scenario.create_folder in
  @hdfs_file.resolv_states refusing (Scenario.real p) p
    (@HdfsUtils.HdfsContextCli.new refusing "/bin/hdfs")
    HdfsUtils.HdfsContextCli.result0 (Canned.blank (1, "", "mkdir: Permission denied"))
  = (inl (FailJson "subprocess mkdir stderr: mkdir: Permission denied"),
     @Build_World refusing tt [["/bin/hdfs"; "dfs"; "-mkdir"; "-p"; "/tmp/myfolder"]]).
Proof.
  intros refusing p.
  exact (proj2 (@resolv_states_catches_HdfsUtilsError refusing (Scenario.real p) p
                  (@HdfsUtils.HdfsContextCli.new refusing "/bin/hdfs")
                  HdfsUtils.HdfsContextCli.result0
                  (Canned.blank (1, "", "mkdir: Permission denied")))
           _ _ _ eq_refl eq_refl eq_refl eq_refl).
Defined.

Lemma library_method_fails_fast_witness :
  let p := {| hdfs_file.group := None; hdfs_file.method := hdfs_file.library;
              hdfs_file.mode := None; hdfs_file.owner := None;
              hdfs_file.path := "/tmp/myfile"; hdfs_file.recurse := None;
              hdfs_file.replication := None; hdfs_file.state := hdfs_file.file |} in
  hdfs_file.method p = hdfs_file.library /\
  hdfs_file.run (hdfs_file.main_in ("HdfsContextCli" :: hdfs_file.globals) (Scenario.check p))
    (Double.world [])
  = (FailJson "Not yet implemented", Double.world []).
Proof.
  intros p. split; [reflexivity|].
  exact (@library_method_fails_fast Double.backend ("HdfsContextCli" :: hdfs_file.globals)
           (Scenario.check p) (Double.world []) eq_refl).
Defined.

(* ===================================================================== *)
(** ** Further properties: the processes of a run *)
(* ===================================================================== *)

Section Processes.
Context {B : Backend}.
Import HdfsUtils hdfs_file.

Lemma is_mutation_chown_cmd c path o g r :
  is_mutation (HdfsContextCli.chown_cmd c path o g r) = true.
Proof. unfold HdfsContextCli.chown_cmd. destruct (Py.truthy r); reflexivity. Qed.

Lemma is_mutation_chmod_cmd c path m r :
  is_mutation (HdfsContextCli.chmod_cmd c path m r) = true.
Proof. unfold HdfsContextCli.chmod_cmd. destruct (Py.truthy r); reflexivity. Qed.

Lemma transition_calls_bound c p status :
  (length (transition_calls c p status) <= 1)%nat /\
  Forall (fun a => is_mutation a = true /\ is_attribute_op a = false)
    (map snd (transition_calls c p status)).
Proof.
  unfold transition_calls, transition_table.
  destruct (String.eqb (st_state status) (state_str (state p))); [split; [simpl; lia|constructor]|].
  destruct (state p);
    destruct (String.eqb (st_state status) "absent");
    destruct (String.eqb (st_state status) "file");
    destruct (String.eqb (st_state status) "directory"); simpl;
    split; try lia; repeat constructor.
Qed.

Lemma attribute_calls_bound c p status :
  (length (attribute_calls c p status) <= 4)%nat /\
  Forall (fun a => is_mutation a = true /\ is_attribute_op a = true)
    (map snd (attribute_calls c p status)).
Proof.
  unfold attribute_calls.
  destruct (should_modify status p Owner), (should_modify status p Group),
    (should_modify status p Replication), (replication p), (mode p); simpl;
    split; try lia; repeat constructor;
    try apply is_mutation_chown_cmd; try apply is_mutation_chmod_cmd;
    try (unfold HdfsContextCli.chown_cmd; destruct (Py.truthy (recurse p)); reflexivity);
    try (unfold HdfsContextCli.chmod_cmd; destruct (Py.truthy (recurse p)); reflexivity).
Qed.

Lemma plan_bound c p status :
  (length (plan c p status) <= 5)%nat /\
  Forall (fun a => is_mutation a = true) (plan c p status).
Proof.
  unfold plan.
  destruct (transition_calls_bound c p status) as [Lt Ft].
  destruct (attribute_calls_bound c p status) as [La Fa].
  rewrite length_app, length_map. split.
  - destruct (String.eqb (state_str (state p)) "absent"); simpl; [lia|].
    rewrite length_map. lia.
  - apply Forall_app. split.
    + eapply Forall_impl; [|exact Ft]. intros a [H _]. exact H.
    + destruct (String.eqb (state_str (state p)) "absent"); [constructor|].
      eapply Forall_impl; [|exact Fa]. intros a [H _]. exact H.
Qed.

(** X14.  However it ends, a run starts the status query first and only
    once, and at most five processes after it (one for the state, two
    [-chown], one [-setrep], one [-chmod]). *)
Theorem query_first_then_at_most_five (c : string) (module : AnsibleModule) (w : World) :
  let r := run (reconcile module (HdfsContextCli.new c)) w in
  exists rest,
    issued w (snd r) = HdfsContextCli.stats_cmd c (path (params module)) :: rest /\
    (length rest <= 5)%nat /\
    Forall (fun argv => is_mutation argv = true) rest.
Proof.
  intros r. subst r.
  destruct (HdfsContextCli.stats c (path (params module)) w) as [[s|status] w1] eqn:Hst.
  - exists []. rewrite reconcile_run, Hst. simpl. split; [|split; [lia|constructor]].
    apply issued_app. exact (stats_spawned c _ w _ w1 Hst).
  - destruct (run (reconcile module (HdfsContextCli.new c)) w) as [s w'] eqn:Hrun.
    destruct (reconcile_plan c module w status w1 s w' Hst Hrun) as [[k Hk] _].
    destruct (plan_bound c (params module) status) as [Hl Hf].
    exists (firstn k (plan c (params module) status)). simpl. split; [|split].
    + apply issued_app. rewrite Hk, (stats_spawned c _ w _ w1 Hst).
      now rewrite <- app_assoc.
    + rewrite length_firstn. lia.
    + apply Forall_firstn. exact Hf.
Qed.

(** A run that completes on states that differ has gone through a
    supported transition. *)
Lemma completed_transition c module (w : World) status w1 ch w' :
  HdfsContextCli.stats c (path (params module)) w = (inr status, w1) ->
  run (reconcile module (HdfsContextCli.new c)) w = (ExitJson ch, w') ->
  st_state status <> state_str (state (params module)) ->
  exists what argv,
    transition_table c (path (params module)) (st_state status) (state (params module))
    = Call what argv.
Proof.
  intros Hst Hrun Hne.
  destruct (transition_table c (path (params module)) (st_state status)
              (state (params module))) as [msg|what argv] eqn:Ht; [|eauto].
  exfalso. rewrite reconcile_run, Hst in Hrun.
  apply String.eqb_neq in Hne as Hb. rewrite Hb in Hrun. simpl in Hrun.
  rewrite (resolv_states_run c module _ status w1 Hne), Ht in Hrun. discriminate.
Qed.

(** X15.  A run that completes reports [changed=true] exactly when it
    has started a process besides the status query. *)
Theorem changed_iff_process_started (c : string) (module : AnsibleModule) (w : World)
    (changed : bool) (w' : World) :
  run (reconcile module (HdfsContextCli.new c)) w = (ExitJson changed, w') ->
  changed = negb (Nat.eqb (length (issued w w')) 1).
Proof.
  intros Hrun.
  destruct (exit_run c module w changed w' Hrun) as (status & w1 & Hst & Hi & Hch).
  rewrite Hi, Hch. set (p := params module). simpl length.
  unfold changed_flag, plan, transition_calls.
  destruct (String.eqb_spec (st_state status) (state_str (state p))) as [He|Hne]; simpl.
  - destruct (String.eqb (state_str (state p)) "absent"); simpl; [reflexivity|].
    rewrite length_map. destruct (attribute_calls c p status); reflexivity.
  - destruct (completed_transition c module w status w1 changed w' Hst Hrun Hne)
      as (what & argv & Ht).
    fold p in Ht. rewrite Ht. reflexivity.
Qed.

End Processes.

Lemma changed_iff_process_started_witness :
  let m := Scenario.real Scenario.folder_owned in
  let t := [("/tmp/myfolder",
             {| Double.kind := "directory"; Double.e_owner := "myuser";
                Double.e_group := "mygroup"; Double.e_replication := 0 |})] in
  let r := hdfs_file.run (hdfs_file.reconcile m Double.cli) (Double.world t) in
  fst r = ExitJson false /\
  false = negb (Nat.eqb (length (issued (Double.world t) (snd r))) 1).
Proof.
  intros m t r. split; [reflexivity|].
  exact (@changed_iff_process_started Double.backend "/bin/hdfs" m (Double.world t)
           false (snd r) eq_refl).
Defined.


Section Order.
Context {B : Backend}.
Import HdfsUtils hdfs_file.

(** X16.  A run that completes has started its processes in a fixed
    order: the status query, then at most one process for the state
    ([-mkdir], [-touchz] or [-rm]), then at most one [-chown] for the
    owner, at most one [-chown] for the group, at most one [-setrep] and
    at most one [-chmod]. *)
Theorem completed_run_order (c : string) (module : AnsibleModule) (w : World)
    (changed : bool) (w' : World) :
  run (reconcile module (HdfsContextCli.new c)) w = (ExitJson changed, w') ->
  exists t o g r m,
    issued w w'
    = (HdfsContextCli.stats_cmd c (path (params module)) :: t ++ o ++ g ++ r ++ m)%list /\
    (length t <= 1 /\ length o <= 1 /\ length g <= 1 /\ length r <= 1 /\ length m <= 1)%nat /\
    Forall (fun a => In (subcommand a) ["-mkdir"; "-touchz"; "-rm"]) t /\
    Forall (fun a => subcommand a = "-chown") (o ++ g) /\
    Forall (fun a => subcommand a = "-setrep") r /\
    Forall (fun a => subcommand a = "-chmod") m.
Proof.
  intros Hrun.
  destruct (exit_run c module w changed w' Hrun) as (status & w1 & Hst & Hi & _).
  set (p := params module) in *.
  assert (Ht : (length (map snd (transition_calls c p status)) <= 1)%nat /\
               Forall (fun a => In (subcommand a) ["-mkdir"; "-touchz"; "-rm"])
                 (map snd (transition_calls c p status))).
  { unfold transition_calls, transition_table.
    destruct (String.eqb (st_state status) (state_str (state p)));
      [split; [simpl; lia|constructor]|].
    destruct (state p);
      destruct (String.eqb (st_state status) "absent");
      destruct (String.eqb (st_state status) "file");
      destruct (String.eqb (st_state status) "directory"); simpl;
      (split; [lia|]); repeat (apply Forall_cons || apply Forall_nil);
      unfold subcommand; simpl; auto 6. }
  destruct Ht as [Lt Ft].
  exists (map snd (transition_calls c p status)).
  unfold plan in Hi.
  destruct (String.eqb (state_str (state p)) "absent").
  - exists [], [], [], []. rewrite Hi. simpl. repeat split; try lia; try constructor; auto.
  - unfold attribute_calls in Hi. rewrite !map_app in Hi.
    eexists. eexists. eexists. eexists. split; [exact Hi|].
    split; [|split; [exact Ft|split; [|split]]].
    + rewrite !length_map. rewrite length_map in Lt.
      destruct (should_modify status p Owner), (should_modify status p Group),
        (should_modify status p Replication), (replication p), (mode p); simpl; lia.
    + apply Forall_app. split.
      * destruct (should_modify status p Owner); repeat constructor.
        unfold HdfsContextCli.chown_cmd. destruct (Py.truthy (recurse p)); reflexivity.
      * destruct (should_modify status p Group); repeat constructor.
        unfold HdfsContextCli.chown_cmd. destruct (Py.truthy (recurse p)); reflexivity.
    + destruct (should_modify status p Replication); [|constructor].
      destruct (replication p); repeat constructor.
    + destruct (mode p); repeat constructor.
      unfold HdfsContextCli.chmod_cmd. destruct (Py.truthy (recurse p)); reflexivity.
Qed.

Lemma replay_app a : forall b t,
  replay (a ++ b) t
  = let '(ca, t') := replay a t in
    let '(cb, t'') := replay b t' in
    ((ca ++ cb)%list, t'').
Proof.
  induction a as [|argv a IH]; intros b t; simpl.
  - destruct (replay b t); reflexivity.
  - destruct (hdfs argv t) as [[[rc out] err] t']. rewrite IH.
    destruct (replay a t') as [ca t'']. destruct (replay b t'') as [cb t3]. reflexivity.
Qed.

Lemma run_all_replay calls : forall (w w' : World),
  run_all calls w = (None, w') ->
  replay (map snd calls) (fs w) = (map (fun _ => 0) calls, fs w').
Proof.
  induction calls as [|[what argv] rest IH]; simpl; intros w w' H.
  - inversion H; subst. reflexivity.
  - destruct (hdfs argv (fs w)) as [[[rc out] err] t'].
    destruct (Z.eqb_spec rc 0) as [->|Hne]; simpl in H; [|discriminate].
    pose proof (IH _ _ H) as E. simpl in E. rewrite E. reflexivity.
Qed.

Lemma finish_replay c p status ch (w1 : World) ch' w' :
  finish c p status ch w1 = (ExitJson ch', w') ->
  let tail := if String.eqb (state_str (state p)) "absent" then []
              else map snd (attribute_calls c p status) in
  replay tail (fs w1) = (map (fun _ => 0) tail, fs w').
Proof.
  unfold finish, attributes_phase.
  destruct (String.eqb (state_str (state p)) "absent"); simpl.
  - intros H; inversion H; subst. reflexivity.
  - destruct (run_all (attribute_calls c p status) w1) as [[msg|] w2] eqn:Hr;
      intros H; inversion H; subst.
    rewrite (run_all_replay _ _ _ Hr), map_map. reflexivity.
Qed.

(** X17.  A run that completes leaves the file system that the
    processes it started, run one after the other from the initial file
    system, leave; and every one of them after the status query exited
    with status 0. *)
Theorem completed_run_replay (c : string) (module : AnsibleModule) (w : World)
    (changed : bool) (w' : World) :
  run (reconcile module (HdfsContextCli.new c)) w = (ExitJson changed, w') ->
  exists rc,
    replay (issued w w') (fs w) = (rc :: map (fun _ => 0) (tl (issued w w')), fs w').
Proof.
  intros Hrun.
  destruct (exit_run c module w changed w' Hrun) as (status & w1 & Hst & Hi & _).
  set (p := params module) in *.
  assert (Hq : exists rc, hdfs (HdfsContextCli.stats_cmd c (path p)) (fs w)
                          = (fst (hdfs (HdfsContextCli.stats_cmd c (path p)) (fs w)), fs w1)
                          /\ fst (fst (fst (hdfs (HdfsContextCli.stats_cmd c (path p)) (fs w))))
                             = rc).
  { unfold HdfsContextCli.stats, bind, Popen in Hst.
    destruct (hdfs (HdfsContextCli.stats_cmd c (path p)) (fs w)) as [[[rc out] err] t'].
    exists rc. destruct (negb (rc =? 0)); [|destruct (HdfsContextCli.parse out)];
      inversion Hst; subst; split; reflexivity. }
  destruct Hq as (rc & Hq & Hrc).
  assert (Hp : replay (plan c p status) (fs w1)
               = (map (fun _ => 0) (plan c p status), fs w')).
  { rewrite reconcile_run in Hrun. fold p in Hrun. rewrite Hst in Hrun.
    unfold plan, transition_calls.
    destruct (String.eqb_spec (st_state status) (state_str (state p))) as [He|Hne];
      simpl in Hrun.
    - simpl. exact (finish_replay c p status false w1 changed w' Hrun).
    - rewrite (resolv_states_run c module p status w1 Hne) in Hrun.
      destruct (transition_table c (path p) (st_state status) (state p))
        as [msg|what argv]; [discriminate|].
      destruct (run_all [(what, argv)] w1) as [[msg|] w2] eqn:Hr; [discriminate|].
      apply run_all_replay in Hr.
      apply finish_replay in Hrun.
      rewrite replay_app, Hr, Hrun, map_app. reflexivity. }
  exists rc. rewrite Hi. simpl.
  rewrite Hq. destruct (fst (hdfs (HdfsContextCli.stats_cmd c (path p)) (fs w)))
    as [[rc' out] err] eqn:Hf.
  simpl in Hrc. subst rc'. rewrite Hp. reflexivity.
Qed.

End Order.

Lemma completed_run_order_witness :
  let m := Scenario.real Scenario.create_folder in
  let w := Double.world [] in
  let r := hdfs_file.run (hdfs_file.reconcile m Double.cli) w in
  fst r = ExitJson true /\
  exists t o g s c,
    issued w (snd r)
    = (HdfsUtils.HdfsContextCli.stats_cmd "/bin/hdfs" "/tmp/myfolder" :: t ++ o ++ g ++ s ++ c)%list
    /\ Forall (fun a => subcommand a = "-chmod") c.
Proof.
  intros m w r. split; [reflexivity|].
  destruct (@completed_run_order Double.backend "/bin/hdfs" m w true (snd r) eq_refl)
    as (t & o & g & s & c & Hi & _ & _ & _ & _ & Hc).
  exists t, o, g, s, c. split; assumption.
Defined.

Lemma completed_run_replay_witness :
  let m := Scenario.real Scenario.create_folder in
  let w := Double.world [] in
  let r := hdfs_file.run (hdfs_file.reconcile m Double.cli) w in
  fst r = ExitJson true /\
  exists rc, replay (issued w (snd r)) (fs w)
             = (rc :: map (fun _ => 0) (tl (issued w (snd r))), fs (snd r)).
Proof.
  intros m w r. split; [reflexivity|].
  exact (@completed_run_replay Double.backend "/bin/hdfs" m w true (snd r) eq_refl).
Defined.

Section Failures.
Context {B : Backend}.
Import HdfsUtils hdfs_file.

Lemma run_all_fails calls : forall (w : World) msg w',
  run_all calls w = (Some msg, w') ->
  exists pre argv,
    spawned w' = (spawned w ++ pre ++ [argv])%list /\ In argv (map snd calls).
Proof.
  induction calls as [|[what argv] rest IH]; simpl; intros w msg w' H; [discriminate|].
  destruct (hdfs argv (fs w)) as [[[rc out] err] t'].
  destruct (rc =? 0); simpl in H.
  - destruct (IH _ _ _ H) as (pre & a & Hs & Hin).
    exists (argv :: pre), a. simpl in Hs. split; [|right; exact Hin].
    rewrite Hs, <- app_assoc. reflexivity.
  - inversion H; subst. exists [], argv. split; [reflexivity|left; reflexivity].
Qed.

Lemma finish_failure c p status ch (w2 : World) s w' :
  finish c p status ch w2 = (s, w') ->
  match s with
  | ExitJson _ => True
  | Raise (HdfsUtilsError _) =>
      exists pre argv,
        spawned w' = (spawned w2 ++ pre ++ [argv])%list /\ is_attribute_op argv = true
  | _ => False
  end.
Proof.
  unfold finish, attributes_phase.
  destruct (String.eqb (state_str (state p)) "absent").
  - intros H; inversion H; exact I.
  - destruct (run_all (attribute_calls c p status) w2) as [[msg|] w3] eqn:Hr;
      intros H; inversion H; subst; [|exact I].
    destruct (run_all_fails _ _ _ _ Hr) as (pre & argv & Hs & Hin).
    exists pre, argv. split; [exact Hs|].
    destruct (attribute_calls_bound c p status) as [_ Hf].
    rewrite Forall_forall in Hf. exact (proj2 (Hf argv Hin)).
Qed.

(** X18.  Where a failure is reported tells where it happened.  A run
    that ends on [fail_json] has started no attribute process: the state
    step refused the transition or its process failed.  A run that ends
    on an uncaught [HdfsUtilsError] has a [-chown], [-setrep] or [-chmod]
    process as the last one it started: failures of the attribute steps
    are not turned into [fail_json]. *)
Theorem failure_origin (c : string) (module : AnsibleModule) (w : World) :
  let r := run (reconcile module (HdfsContextCli.new c)) w in
  match fst r with
  | FailJson _ => Forall (fun argv => is_attribute_op argv = false) (issued w (snd r))
  | Raise (HdfsUtilsError _) => is_attribute_op (last (issued w (snd r)) []) = true
  | _ => True
  end.
Proof.
  intros r. subst r. rewrite reconcile_run.
  set (p := params module).
  destruct (HdfsContextCli.stats c (path p) w) as [[s|status] w1] eqn:Hst.
  - unfold HdfsContextCli.stats, bind, Popen in Hst.
    destruct (hdfs _ (fs w)) as [[[rc out] err] t'].
    destruct (negb (rc =? 0)); [discriminate|].
    unfold HdfsContextCli.parse in Hst.
    destruct (Py.split "[SEP]" (Py.strip out)) as [|f0 [|f1 [|f2 [|f3 rest]]]];
      try (inversion Hst; subst; exact I).
    destruct (Py.int f3); inversion Hst; subst; exact I.
  - pose proof (stats_spawned c (path p) w _ w1 Hst) as Hq.
    assert (Hfin : forall ch (w2 : World) pre0,
      spawned w2 = (spawned w1 ++ pre0)%list ->
      Forall (fun argv => is_attribute_op argv = false) pre0 ->
      match fst (finish c p status ch w2) with
      | FailJson _ =>
          Forall (fun argv => is_attribute_op argv = false)
            (issued w (snd (finish c p status ch w2)))
      | Raise (HdfsUtilsError _) =>
          is_attribute_op (last (issued w (snd (finish c p status ch w2))) []) = true
      | _ => True
      end).
    { intros ch w2 pre0 Hw2 _.
      destruct (finish c p status ch w2) as [s w'] eqn:Hf.
      pose proof (finish_failure c p status ch w2 s w' Hf) as Hm. simpl.
      destruct s as [ch'|msg|e]; [exact I|contradiction|].
      destruct e; try contradiction; try exact I.
      destruct Hm as (pre & argv & Hs & Ha).
      assert (Hi : issued w w'
                   = ((HdfsContextCli.stats_cmd c (path p) :: pre0 ++ pre) ++ [argv])%list).
      { apply issued_app. rewrite Hs, Hw2, Hq.
        rewrite <- !app_assoc. simpl. rewrite <- !app_assoc. reflexivity. }
      rewrite Hi, last_last. exact Ha. }
    destruct (String.eqb_spec (st_state status) (state_str (state p))) as [He|Hne]; simpl negb;
      cbv iota.
    + apply (Hfin false w1 []); [now rewrite app_nil_r|constructor].
    + rewrite (resolv_states_run c module p status w1 Hne).
      pose proof (transition_calls_bound c p status) as [_ Ft].
      unfold transition_calls in Ft. apply String.eqb_neq in Hne as Hb. rewrite Hb in Ft.
      destruct (transition_table c (path p) (st_state status) (state p)) as [msg|what argv].
      * simpl. rewrite (issued_app w w1 _ Hq). repeat constructor.
      * destruct (run_all [(what, argv)] w1) as [[msg|] w2] eqn:Hr.
        -- simpl. apply run_all_spawned in Hr. destruct Hr as [[k Hk] _].
           rewrite Hq, <- app_assoc in Hk. rewrite (issued_app w w2 _ Hk). simpl.
           constructor; [reflexivity|]. apply Forall_firstn.
           eapply Forall_impl; [|exact Ft]. intros a [_ H]. exact H.
        -- apply run_all_spawned in Hr. destruct Hr as [_ Hn].
           apply (Hfin true w2 (map snd [(what, argv)])); [exact (Hn eq_refl)|].
           eapply Forall_impl; [|exact Ft]. intros a [_ H]. exact H.
Qed.

End Failures.

Example failure_in_state_step_and_in_attribute_step :
  let denied := (1, "", "Permission denied") in
  let m := Scenario.real Scenario.create_folder in
  @hdfs_file.run (Canned.answering denied)
    (hdfs_file.reconcile m (@HdfsUtils.HdfsContextCli.new (Canned.answering denied) "/bin/hdfs"))
    (Canned.blank denied)
  = (FailJson "subprocess mkdir stderr: Permission denied",
     @Build_World (Canned.answering denied) tt
       [["/bin/hdfs"; "dfs"; "-stat"; "%F[SEP]%u[SEP]%g[SEP]%r"; "/tmp/myfolder"];
        ["/bin/hdfs"; "dfs"; "-mkdir"; "-p"; "/tmp/myfolder"]]) /\
  (let p := {| hdfs_file.group := None; hdfs_file.method := hdfs_file.command;
               hdfs_file.mode := None; hdfs_file.owner := Some "";
               hdfs_file.path := "/tmp/myfile"; hdfs_file.recurse := None;
               hdfs_file.replication := None; hdfs_file.state := hdfs_file.file |} in
   hdfs_file.run (hdfs_file.reconcile (Scenario.real p) Double.cli)
     (Double.world [("/tmp/myfile", Double.new_file)])
   = (Raise (HdfsUtilsError "subprocess chown stderr: chown: invalid owner"),
      Double.logged [("/tmp/myfile", Double.new_file)]
        [["/bin/hdfs"; "dfs"; "-stat"; "%F[SEP]%u[SEP]%g[SEP]%r"; "/tmp/myfile"];
         ["/bin/hdfs"; "dfs"; "-chown"; ""; "/tmp/myfile"]])).
Proof. split; reflexivity. Qed.

Section Destructive.
Context {B : Backend}.
Import HdfsUtils hdfs_file.

Lemma attribute_op_subcommand a :
  is_attribute_op a = true ->
  subcommand a <> "-rm" /\ subcommand a <> "-mkdir" /\ subcommand a <> "-touchz".
Proof.
  unfold is_attribute_op. intros H.
  repeat split; intros E; rewrite E in H; discriminate.
Qed.

(** X19.  Which desired state can create or delete.  However a run
    ends, a [-rm] process is started only with [state=absent], a
    [-mkdir] process only with [state=directory], and a [-touchz] process
    only with [state=touch]; with [state=file] none of the three is ever
    started. *)
Theorem creation_and_removal_by_state (c : string) (module : AnsibleModule) (w : World) :
  let p := params module in
  let r := run (reconcile module (HdfsContextCli.new c)) w in
  Forall (fun argv =>
            (subcommand argv = "-rm" -> state p = absent) /\
            (subcommand argv = "-mkdir" -> state p = directory) /\
            (subcommand argv = "-touchz" -> state p = touch))
    (issued w (snd r)).
Proof.
  intros p r. subst r.
  set (P := fun argv : list string =>
              (subcommand argv = "-rm" -> state p = absent) /\
              (subcommand argv = "-mkdir" -> state p = directory) /\
              (subcommand argv = "-touchz" -> state p = touch)).
  assert (Hq : P (HdfsContextCli.stats_cmd c (path p))).
  { unfold P. repeat split; intros E; discriminate E. }
  assert (Hplan : forall status, Forall P (plan c p status)).
  { intros status. unfold plan. apply Forall_app. split.
    - unfold transition_calls, transition_table.
      destruct (String.eqb (st_state status) (state_str (state p))); [constructor|].
      destruct (state p);
        destruct (String.eqb (st_state status) "absent");
        destruct (String.eqb (st_state status) "file");
        destruct (String.eqb (st_state status) "directory"); simpl;
        repeat constructor; try reflexivity; intros E; discriminate E.
    - destruct (String.eqb (state_str (state p)) "absent"); [constructor|].
      destruct (attribute_calls_bound c p status) as [_ Hf].
      eapply Forall_impl; [|exact Hf]. intros a [_ Ha].
      destruct (attribute_op_subcommand a Ha) as (H1 & H2 & H3).
      unfold P. repeat split; intros E; contradiction. }
  destruct (HdfsContextCli.stats c (path p) w) as [[s|status] w1] eqn:Hst.
  - rewrite reconcile_run. fold p. rewrite Hst. simpl.
    rewrite (issued_app w w1 _ (stats_spawned c (path p) w _ w1 Hst)).
    constructor; [exact Hq|constructor].
  - destruct (run (reconcile module (HdfsContextCli.new c)) w) as [s w'] eqn:Hrun.
    destruct (reconcile_plan c module w status w1 s w' Hst Hrun) as [[k Hk] _].
    simpl. rewrite (stats_spawned c (path p) w _ w1 Hst), <- app_assoc in Hk.
    rewrite (issued_app w w' _ Hk). simpl.
    constructor; [exact Hq|]. apply Forall_firstn. apply Hplan.
Qed.

End Destructive.
